(** * The experiment-artifact manager of [utils/config_manager.py]

    A shallow embedding of the configuration and artifact manager
    ([load_configs], [save_configs], [initialise_config], [save_figure],
    [save_data], [clear_data_and_figure], [print_config], [load_data]) over
    an explicit model
    of the filesystem, and the properties of the repository's specification
    that concern it.

    Python values are modelled as follows.  Strings are [string]; a
    [notebook_config] dictionary is a [gmap string string]; the process-wide
    [new_path = os.getenv("NEW_DATA_PATH")] is an [option string] ([None]
    when the variable is unset).  The filesystem is a finite map from
    resolved paths (lists of names) to nodes.  Exceptions are values of
    [exn]; every operation is a state transformer on [world] that returns
    either an exception or a result, so that the effects performed before an
    exception is raised remain visible. *)

From Stdlib Require Import ZArith Ascii String List.
From stdpp Require Import base option list strings gmap fin_maps.

Local Open Scope string_scope.
Local Open Scope Z_scope.
Local Open Scope list_scope.

(** Python's [+] on strings is [+:+]; it computes by recursion on its first
    argument. *)
#[local] Arguments String.append !_ _ / : simpl nomatch.

(** ** Strings *)

Module Str.

(** [s.startswith(p)] *)
Fixpoint startswith (s p : string) {struct p} : bool :=
  match p, s with
  | EmptyString, _ => true
  | String a p', String b s' => Ascii.eqb b a && startswith s' p'
  | String _ _, EmptyString => false
  end.

(** [s.endswith("/")] *)
Fixpoint endswith_slash (s : string) : bool :=
  match s with
  | EmptyString => false
  | String c EmptyString => Ascii.eqb c "/"
  | String _ s' => endswith_slash s'
  end.

Definition is_empty (s : string) : bool :=
  match s with EmptyString => true | _ => false end.

(** The character ['/'] occurs in [s]. *)
Fixpoint has_slash (s : string) : bool :=
  match s with
  | EmptyString => false
  | String c s' => Ascii.eqb c "/" || has_slash s'
  end.


End Str.

(** ** Paths: [os.path.join] and path resolution *)

Module Path.

(** One step of [posixpath.join]: an absolute component discards what
    precedes it; otherwise the component is appended, with a separator
    unless the path so far is empty or already ends with one. *)
Definition join2 (a b : string) : string :=
  if Str.startswith b "/" then b
  else if Str.is_empty a || Str.endswith_slash a then a +:+ b
  else a +:+ "/" +:+ b.

Definition join (a : string) (ps : list string) : string :=
  fold_left join2 ps a.

(** A resolved path: the names from the filesystem root downwards. *)
Abbreviation t := (list string).

Definition cons_name (h : string) (q : t) : t :=
  if Str.is_empty h then q else h :: q.

(** Splitting at ['/']: the first name (possibly empty) and the others. *)
Fixpoint split (s : string) : string * t :=
  match s with
  | EmptyString => (EmptyString, [])
  | String c s' =>
      let (h, q) := split s' in
      if Ascii.eqb c "/" then (EmptyString, cons_name h q)
      else (String c h, q)
  end.

(** Resolution of a path string: empty names (repeated, leading and
    trailing separators) are dropped.  Relative paths are resolved against
    the root.  The names ["."] and [".."] are kept as they are written, and
    there are no symbolic links: a path string denotes the entry the kernel
    would reach when it is [plain]. *)
Definition resolve (s : string) : t :=
  let (h, q) := split s in cons_name h q.

(** The names the kernel interprets instead of looking them up. *)
Definition dot_name (n : string) : bool :=
  String.eqb n "." || String.eqb n "..".

(** A path string without dot names. *)
Definition plain (s : string) : bool :=
  forallb (fun n => negb (dot_name n)) (resolve s).

(** The last name of a resolved path. *)
Definition basename (q : t) : string := List.last q EmptyString.

Definition parent (q : t) : t := removelast q.

(** A name a directory entry can bear: not empty and without ['/']. *)
Definition valid_name (n : string) : bool :=
  negb (Str.is_empty n) && negb (Str.has_slash n).

End Path.

(** ** Exceptions, the filesystem and the world *)

Definition bytes := list Byte.byte.

(** The exceptions the module and the libraries below it raise.  The two
    [ValueError]s of [save_data] differ by their message, as in the source;
    an exception raised inside [pickle], [yaml], [pandas] or [matplotlib] is
    a [LibraryError]. *)
Inductive exn : Type :=
| KeyError (key : string)
| TypeError (msg : string)
| ValueError (msg : string)
| FileNotFoundError (msg : string)
| FileExistsError (p : string)
| NotADirectoryError (p : string)
| IsADirectoryError (p : string)
| LibraryError (lib : string).

Definition msg_no_to_csv : string := "Data does not have a 'to_csv' method.".
Definition msg_unsupported : string :=
  "Unsupported data format. Use 'pkl' or 'csv'.".
Definition msg_join_none : string :=
  "expected str, bytes or os.PathLike object, not NoneType".

Inductive node : Type :=
| Dir
| File (content : bytes).

(** The calls made to the operating system, in order, with the path string
    they were given. *)
Inductive syscall : Type :=
| Stat (p : string)
| Makedirs (p : string)
| OpenW (p : string)
| OpenR (p : string)
| Listdir (p : string)
| Remove (p : string).

Record world : Type := World {
  files : gmap Path.t node;
  calls : list syscall;
  stdout : list string
}.

Definition set_files (fs : gmap Path.t node) (w : world) : world :=
  World fs (calls w) (stdout w).

(** The node a resolved path denotes; the root is always a directory. *)
Definition node_at (fs : gmap Path.t node) (q : Path.t) : option node :=
  match q with
  | [] => Some Dir
  | _ => fs !! q
  end.

(** The content of the regular file at [q], if there is one. *)
Definition file_at (fs : gmap Path.t node) (q : Path.t) : option bytes :=
  match fs !! q with
  | Some (File c) => Some c
  | _ => None
  end.

Definition is_dir (fs : gmap Path.t node) (q : Path.t) : Prop :=
  node_at fs q = Some Dir.

(** Every entry bears a valid name. *)
Definition wf_fs (fs : gmap Path.t node) : Prop :=
  map_Forall (fun q _ => forallb Path.valid_name q = true) fs.

(** ** The monad of operations: state and exceptions *)

Definition M (A : Type) : Type := world -> world * (exn + A).

Definition ret {A} (a : A) : M A := fun w => (w, inr a).

Definition raise {A} (e : exn) : M A := fun w => (w, inl e).

Definition bind {A B} (m : M A) (k : A -> M B) : M B :=
  fun w =>
    match m w with
    | (w', inr a) => k a w'
    | (w', inl e) => (w', inl e)
    end.

Notation "'do' x <- m ; k" := (bind m (fun x => k))
  (at level 10, x name, m at level 100, k at level 200,
   format "'[v' 'do'  x  <-  m ; '/' k ']'").
Notation "'run' m ; k" := (bind m (fun _ => k))
  (at level 10, m at level 100, k at level 200,
   format "'[v' 'run'  m ; '/' k ']'").

(** [if c: body] *)
Definition when (c : bool) (body : M unit) : M unit :=
  if c then body else ret tt.

(** [for x in l: body(x)] *)
Fixpoint for_each {A} (l : list A) (body : A -> M unit) : M unit :=
  match l with
  | [] => ret tt
  | x :: l' => run body x; for_each l' body
  end.

Definition log (c : syscall) : M unit :=
  fun w => (World (files w) (calls w ++ [c]) (stdout w), inr tt).

Definition print (s : string) : M unit :=
  fun w => (World (files w) (calls w) (stdout w ++ [s]), inr tt).

(** ** The [os] module *)

Module OS.

(** [os.path.join(new_path, ...)] where the first argument comes from
    [os.getenv]: [None] is rejected with a [TypeError]. *)
Definition path_join (root : option string) (ps : list string) : M string :=
  match root with
  | Some r => ret (Path.join r ps)
  | None => raise (TypeError msg_join_none)
  end.

Definition exists_b (fs : gmap Path.t node) (p : string) : bool :=
  if Str.is_empty p then false
  else match node_at fs (Path.resolve p) with
       | Some Dir => true
       | Some (File _) => negb (Str.endswith_slash p)
       | None => false
       end.

(** [os.path.exists(p)] *)
Definition path_exists (p : string) : M bool :=
  run log (Stat p); fun w => (w, inr (exists_b (files w) p)).

(** Creation of the missing directories along [todo], below [pre]; the
    directories created before a failure remain. *)
Fixpoint mkdirs (p : string) (pre todo : Path.t) (fs : gmap Path.t node)
  : gmap Path.t node * option exn :=
  match todo with
  | [] => (fs, None)
  | n :: rest =>
      let q := pre ++ [n] in
      match fs !! q with
      | None => mkdirs p q rest (<[q := Dir]> fs)
      | Some Dir => mkdirs p q rest fs
      | Some (File _) =>
          (fs, Some (match rest with
                     | [] => FileExistsError p
                     | _ => NotADirectoryError p
                     end))
      end
  end.

(** [os.makedirs(p, exist_ok=True)] *)
Definition makedirs (p : string) : M unit :=
  run log (Makedirs p);
  fun w =>
    if Str.is_empty p then (w, inl (FileNotFoundError p))
    else match mkdirs p [] (Path.resolve p) (files w) with
         | (fs, None) => (set_files fs w, inr tt)
         | (fs, Some e) => (set_files fs w, inl e)
         end.

(** The error of a system call on a path that names nothing.  The kernel
    walks the names [todo] below [pre]: a regular file on the way gives
    [ENOTDIR], a missing name [ENOENT]. *)
Fixpoint absent (p : string) (pre todo : Path.t) (fs : gmap Path.t node)
  : exn :=
  match todo with
  | [] => FileNotFoundError p
  | n :: rest =>
      match fs !! (pre ++ [n]) with
      | Some Dir => absent p (pre ++ [n]) rest fs
      | Some (File _) => NotADirectoryError p
      | None => FileNotFoundError p
      end
  end.

(** [open(p, "w")] and [open(p, "wb")]: the file is created or truncated;
    the result stands for the file object. *)
Definition open_w (p : string) : M Path.t :=
  run log (OpenW p);
  fun w =>
    let q := Path.resolve p in
    let created := (set_files (<[q := File []]> (files w)) w, inr q) in
    if Str.is_empty p then (w, inl (FileNotFoundError p))
    else match node_at (files w) q with
         | Some Dir => (w, inl (IsADirectoryError p))
         | Some (File _) =>
             if Str.endswith_slash p then (w, inl (NotADirectoryError p))
             else created
         | None =>
             match node_at (files w) (Path.parent q) with
             | Some Dir =>
                 if Str.endswith_slash p then (w, inl (IsADirectoryError p))
                 else created
             | _ => (w, inl (absent p [] q (files w)))
             end
         end.

(** What the regular file at [p] holds, if there is one: the state a
    library meets when it opens the path itself. *)
Definition content (p : string) : M (option bytes) :=
  fun w => (w, inr (file_at (files w) (Path.resolve p))).

(** Writing the whole content through an open file object. *)
Definition write (f : Path.t) (b : bytes) : M unit :=
  fun w => (set_files (<[f := File b]> (files w)) w, inr tt).

(** [open(p, "r")] and [open(p, "rb")] followed by reading everything. *)
Definition read (p : string) : M bytes :=
  run log (OpenR p);
  fun w =>
    if Str.is_empty p then (w, inl (FileNotFoundError p))
    else match node_at (files w) (Path.resolve p) with
         | Some Dir => (w, inl (IsADirectoryError p))
         | Some (File c) =>
             if Str.endswith_slash p then (w, inl (NotADirectoryError p))
             else (w, inr c)
         | None => (w, inl (absent p [] (Path.resolve p) (files w)))
         end.

Definition child_name (q k : Path.t) : option string :=
  if decide (take (length q) k = q) then
    match drop (length q) k with
    | [n] => Some n
    | _ => None
    end
  else None.

(** The names of the entries of the directory [q]. *)
Definition children (fs : gmap Path.t node) (q : Path.t) : list string :=
  omap (child_name q) (map_to_list fs).*1.

(** [os.listdir(p)]; the order of the names is the platform's,
    [order] below. *)
Definition listdir (order : list string -> list string) (p : string)
  : M (list string) :=
  run log (Listdir p);
  fun w =>
    if Str.is_empty p then (w, inl (FileNotFoundError p))
    else match node_at (files w) (Path.resolve p) with
         | Some Dir => (w, inr (order (children (files w) (Path.resolve p))))
         | Some (File _) => (w, inl (NotADirectoryError p))
         | None => (w, inl (absent p [] (Path.resolve p) (files w)))
         end.

(** [os.remove(p)]: only a regular file can be removed. *)
Definition remove (p : string) : M unit :=
  run log (Remove p);
  fun w =>
    if Str.is_empty p then (w, inl (FileNotFoundError p))
    else match node_at (files w) (Path.resolve p) with
         | Some Dir => (w, inl (IsADirectoryError p))
         | Some (File _) =>
             if Str.endswith_slash p then (w, inl (NotADirectoryError p))
             else (set_files (delete (Path.resolve p) (files w)) w, inr tt)
         | None => (w, inl (absent p [] (Path.resolve p) (files w)))
         end.

End OS.

(** ** The libraries the module calls *)

Local Set Warnings "-register-all".

(** A configuration document as it is handed to [yaml.dump]: a scalar, a
    list, a tuple, or a mapping with string keys whose entries are kept in
    insertion order. *)
Inductive doc (scalar : Type) : Type :=
| DScalar (s : scalar)
| DSeq (items : list (doc scalar))
| DTuple (items : list (doc scalar))
| DMap (entries : list (string * doc scalar)).

Arguments DScalar {scalar} s.
Arguments DSeq {scalar} items.
Arguments DTuple {scalar} items.
Arguments DMap {scalar} entries.

(** What the module takes from [pickle], [pandas], [matplotlib], [yaml] and
    the platform.  A serializer that raises returns [None].  [kwargs] are the
    keyword arguments the module forwards untouched; [yaml_dump] takes the
    [sort_keys] flag; [listdir_order] is the order in which [os.listdir]
    reports the entries of a directory.

    [fig.savefig(path, ...)] and [data.to_csv(path, **kwargs)] open the
    path themselves.  [savefig kw fig format] is [None] when the call
    raises before the file is opened, otherwise the content it leaves in
    the file, which it truncates, and whether it returned: a call that
    raises midway leaves what it had written.  [to_csv kw x old] is the
    same for an object with a [to_csv] method, taken to be a [pandas] one,
    with [old] for what the file held before ([None]: there was no file),
    since the mode is among the keyword arguments: with [mode='a'] the
    content left starts with [old].

    The loaders are functions of the bytes they read: an artifact handed to
    [pickle.load] is taken to be data, not a program. *)
Class Libs : Type := {
  obj : Type;
  figure : Type;
  kwargs : Type;
  scalar : Type;
  pickle_dump : kwargs -> obj -> option bytes;
  pickle_load : kwargs -> bytes -> option obj;
  has_to_csv : obj -> bool;
  to_csv : kwargs -> obj -> option bytes -> option (bytes * bool);
  read_csv : kwargs -> bytes -> option obj;
  savefig : kwargs -> figure -> string -> option (bytes * bool);
  yaml_dump : bool -> doc scalar -> bytes;
  yaml_safe_load : bytes -> option (doc scalar);
  listdir_order : list string -> list string
}.

(** ** [config_manager.py] *)

Section ConfigManager.

Context {L : Libs}.

(** [new_path = os.getenv("NEW_DATA_PATH")] *)
Variable new_path : option string.

(** [d[k]] *)
Definition getitem (d : gmap string string) (k : string) : M string :=
  match d !! k with
  | Some v => ret v
  | None => raise (KeyError k)
  end.

(** [d.get(k, dflt)] *)
Definition get (d : gmap string string) (k dflt : string) : string :=
  default dflt (d !! k).

(** [f"{config_version}_{name}.{format}"] *)
Definition artifact_file (config_version name format : string) : string :=
  config_version +:+ "_" +:+ name +:+ "." +:+ format.

(** [f"config_{config_suffix}.yml"] *)
Definition config_file (config_suffix : string) : string :=
  "config_" +:+ config_suffix +:+ ".yml".

Definition load_configs (folder_name config_suffix : string)
  : M (doc scalar) :=
  do config_path <- OS.path_join new_path
                      [folder_name; config_file config_suffix];
  do content <- OS.read config_path;
  match yaml_safe_load content with
  | Some config => ret config
  | None => raise (LibraryError "yaml")
  end.

Definition save_configs (folder_name : string) (config : doc scalar)
    (config_suffix : string) : M unit :=
  do config_path <- OS.path_join new_path
                      [folder_name; config_file config_suffix];
  do f <- OS.open_w config_path;
  OS.write f (yaml_dump false config).

Definition initialise_config (folder_name : string) (verbose : Z)
  : M unit :=
  do folder_path <- OS.path_join new_path [folder_name];
  do present <- OS.path_exists folder_path;
  if negb present then
    run OS.makedirs folder_path;
    run OS.makedirs (Path.join folder_path ["data"]);
    run OS.makedirs (Path.join folder_path ["figures"]);
    when (0 <? verbose)
      (print ("Created folder structure at " +:+ folder_path))
  else
    when (0 <? verbose)
      (print ("Folder " +:+ folder_path
              +:+ " already exists. No changes made.")).

Definition save_figure (notebook_config : gmap string string)
    (fig : figure) (fig_name fig_format : string) (verbose : Z)
    (kw : kwargs) : M unit :=
  do folder_name <- getitem notebook_config "name";
  let config_version := get notebook_config "version" "v1" in
  do figures_path <- OS.path_join new_path [folder_name; "figures"];
  do present <- OS.path_exists figures_path;
  run when (negb present) (OS.makedirs figures_path);
  let fig_path :=
    Path.join figures_path
      [artifact_file config_version fig_name fig_format] in
  run match savefig kw fig fig_format with
      | Some (b, returned) =>
          do f <- OS.open_w fig_path;
          run OS.write f b;
          when (negb returned) (raise (LibraryError "matplotlib"))
      | None => raise (LibraryError "matplotlib")
      end;
  when (0 <? verbose) (print ("Figure saved at " +:+ fig_path)).

Definition save_data (notebook_config : gmap string string) (data : obj)
    (data_name data_format : string) (verbose : Z) (kw : kwargs)
  : M unit :=
  do folder_name <- getitem notebook_config "name";
  let config_version := get notebook_config "version" "v1" in
  do data_path <- OS.path_join new_path [folder_name; "data"];
  do present <- OS.path_exists data_path;
  run when (negb present) (OS.makedirs data_path);
  let data_file_path :=
    Path.join data_path
      [artifact_file config_version data_name data_format] in
  run (if String.eqb data_format "pkl" then
         do f <- OS.open_w data_file_path;
         match pickle_dump kw data with
         | Some b => OS.write f b
         | None => raise (LibraryError "pickle")
         end
       else if String.eqb data_format "csv" then
         if has_to_csv data then
           do old <- OS.content data_file_path;
           match to_csv kw data old with
           | Some (b, returned) =>
               do f <- OS.open_w data_file_path;
               run OS.write f b;
               when (negb returned) (raise (LibraryError "pandas"))
           | None => raise (LibraryError "pandas")
           end
         else raise (ValueError msg_no_to_csv)
       else raise (ValueError msg_unsupported));
  when (0 <? verbose) (print ("Data saved at " +:+ data_file_path)).

(** The loop shared by the two halves of [clear_data_and_figure]:
    [for file in os.listdir(dir): if file.startswith(version + "_"):
     os.remove(os.path.join(dir, file))]. *)
Definition clear_dir (dir config_version : string) : M unit :=
  do entries <- OS.listdir listdir_order dir;
  for_each entries (fun file =>
    when (Str.startswith file (config_version +:+ "_"))
      (OS.remove (Path.join dir [file]))).

Definition clear_data_and_figure (notebook_config : gmap string string)
    (data figure : bool) (verbose : Z) : M unit :=
  if negb data && negb figure then
    when (0 <? verbose)
      (print "No action taken. Both data and figure flags are set to False.")
  else
    do folder_name <- getitem notebook_config "name";
    let config_version := get notebook_config "version" "v1" in
    do data_path <- OS.path_join new_path [folder_name; "data"];
    do data_present <- OS.path_exists data_path;
    run when data_present
          (run clear_dir data_path config_version;
           when (0 <? verbose)
             (print ("Cleared data files for version " +:+ config_version
                     +:+ " in " +:+ data_path)));
    do figures_path <- OS.path_join new_path [folder_name; "figures"];
    do figures_present <- OS.path_exists figures_path;
    when figures_present
      (run clear_dir figures_path config_version;
       when (0 <? verbose)
         (print ("Cleared figure files for version " +:+ config_version
                 +:+ " in " +:+ figures_path))).

Definition load_data (notebook_config : gmap string string)
    (data_name data_format : string) (verbose : Z) (kw : kwargs)
  : M obj :=
  do folder_name <- getitem notebook_config "name";
  let config_version := get notebook_config "version" "v1" in
  do data_path <- OS.path_join new_path [folder_name; "data"];
  let data_file_path :=
    Path.join data_path
      [artifact_file config_version data_name data_format] in
  do present <- OS.path_exists data_file_path;
  run when (negb present)
        (raise (FileNotFoundError
                  ("Data file not found: " +:+ data_file_path)));
  do data <-
    (if String.eqb data_format "pkl" then
       do content <- OS.read data_file_path;
       match pickle_load kw content with
       | Some data => ret data
       | None => raise (LibraryError "pickle")
       end
     else if String.eqb data_format "csv" then
       do content <- OS.read data_file_path;
       match read_csv kw content with
       | Some data => ret data
       | None => raise (LibraryError "pandas")
       end
     else raise (ValueError msg_unsupported));
  run when (0 <? verbose) (print ("Data loaded from " +:+ data_file_path));
  ret data.

End ConfigManager.

(** ** A concrete instance, for running the operations *)

Module Demo.

(** Objects and figures are their own serialization; only objects with an
    even number of bytes export to CSV, in the default mode, which replaces
    the file; the stand-in for [yaml] knows the empty mapping alone;
    [os.listdir] reports entries in the order of the map. *)
Definition libs : Libs := {|
  obj := bytes;
  figure := bytes;
  kwargs := unit;
  scalar := Z;
  pickle_dump := fun _ x => Some x;
  pickle_load := fun _ b => Some b;
  has_to_csv := fun x => Nat.even (length x);
  to_csv := fun _ x _ => Some (x, true);
  read_csv := fun _ b => Some b;
  savefig := fun _ f _ => Some (f, true);
  yaml_dump := fun _ _ => [];
  yaml_safe_load := fun _ => Some (DMap []);
  listdir_order := fun l => l
|}.

Definition root : Path.t := ["tmp"; "root"].
Definition exp1 : Path.t := root ++ ["exp1"].

Definition nb_v1 : gmap string string :=
  {[ "name" := "exp1"; "version" := "v1" ]}.

Definition skeleton : gmap Path.t node :=
  {[ ["tmp"] := Dir; root := Dir; exp1 := Dir;
     exp1 ++ ["data"] := Dir; exp1 ++ ["figures"] := Dir ]}.

Definition start (fs : gmap Path.t node) : world := World fs [] [].

(** A folder with a data artifact of each of two versions and a figure
    of the first. *)
Definition data_v1 : Path.t := exp1 ++ ["data"; "v1_a.pkl"].
Definition data_v2 : Path.t := exp1 ++ ["data"; "v2_a.pkl"].
Definition figure_v1 : Path.t := exp1 ++ ["figures"; "v1_plot.png"].

Definition two_versions : gmap Path.t node :=
  <[ data_v1 := File [Byte.x01] ]>
    (<[ data_v2 := File [Byte.x02] ]>
       (<[ figure_v1 := File [Byte.x03] ]> skeleton)).

(** A folder whose data directory has a subdirectory [v1_sub]. *)
Definition with_subdir : gmap Path.t node :=
  <[ exp1 ++ ["data"; "v1_sub"] := Dir ]> skeleton.

(** The same libraries, with [to_csv] in the mode that appends
    ([mode='a']). *)
Definition appending : Libs := {|
  obj := bytes;
  figure := bytes;
  kwargs := unit;
  scalar := Z;
  pickle_dump := fun _ x => Some x;
  pickle_load := fun _ b => Some b;
  has_to_csv := fun x => Nat.even (length x);
  to_csv := fun _ x old => Some (default [] old ++ x, true);
  read_csv := fun _ b => Some b;
  savefig := fun _ f _ => Some (f, true);
  yaml_dump := fun _ _ => [];
  yaml_safe_load := fun _ => Some (DMap []);
  listdir_order := fun l => l
|}.

(** A folder that holds the table [v1_table.csv]. *)
Definition table_v1 : Path.t := exp1 ++ ["data"; "v1_table.csv"].

Definition with_table : gmap Path.t node :=
  <[ table_v1 := File [Byte.x01; Byte.x02] ]> skeleton.

(** A folder with a configuration file, and a file [v1_x.pkl] in a
    subdirectory [sub] of its data directory. *)
Definition config_v1 : Path.t := exp1 ++ ["config_v1.yml"].
Definition nested_v1 : Path.t := exp1 ++ ["data"; "sub"; "v1_x.pkl"].

Definition with_config : gmap Path.t node :=
  <[ config_v1 := File [Byte.x05] ]>
    (<[ exp1 ++ ["data"; "sub"] := Dir ]>
       (<[ nested_v1 := File [Byte.x04] ]> two_versions)).

End Demo.

(** ** A stand-in for [yaml] *)

Module Yaml.

(** Documents whose scalars are text, written as a prefix code: a tag for
    the kind of node, text closed by a zero byte, the items of a sequence
    and the entries of a mapping closed by an end tag.  A tuple is written
    under a tag of its own, as [yaml.dump] writes [!!python/tuple]; the safe
    loader knows the plain tags only and refuses it, as [yaml.safe_load]
    raises [ConstructorError] there. *)
Definition t_end : Byte.byte := Byte.x00.
Definition t_scalar : Byte.byte := Byte.x01.
Definition t_seq : Byte.byte := Byte.x02.
Definition t_tuple : Byte.byte := Byte.x03.
Definition t_map : Byte.byte := Byte.x04.
Definition t_key : Byte.byte := Byte.x05.

Definition text (s : string) : bytes := list_byte_of_string s ++ [Byte.x00].

(** The text up to its closing zero byte, and what follows. *)
Fixpoint read_text (bs : bytes) : option (string * bytes) :=
  match bs with
  | [] => None
  | b :: rest =>
      if Byte.eqb b Byte.x00 then Some (EmptyString, rest)
      else match read_text rest with
           | Some (t, rest') =>
               Some (String (Ascii.ascii_of_byte b) t, rest')
           | None => None
           end
  end.

(** Insertion of an entry among entries sorted by key. *)
Fixpoint insert_by_key (e : string * bytes) (es : list (string * bytes))
  : list (string * bytes) :=
  match es with
  | [] => [e]
  | e' :: es' =>
      if String.leb e.1 e'.1 then e :: es else e' :: insert_by_key e es'
  end.

Definition sort_by_key (es : list (string * bytes))
  : list (string * bytes) :=
  fold_right insert_by_key [] es.

(** [yaml.dump(d, sort_keys=...)] *)
Fixpoint dump (sort_keys : bool) (d : doc string) : bytes :=
  match d with
  | DScalar s => t_scalar :: text s
  | DSeq items => t_seq :: concat (map (dump sort_keys) items) ++ [t_end]
  | DTuple items => t_tuple :: concat (map (dump sort_keys) items) ++ [t_end]
  | DMap entries =>
      let written :=
        map (fun kv : string * doc string =>
               let (k, v) := kv in (k, dump sort_keys v)) entries in
      t_map
      :: concat (map (fun kb : string * bytes => t_key :: text kb.1 ++ kb.2)
                   (if sort_keys then sort_by_key written else written))
      ++ [t_end]
  end.

(** The loader, on at most [fuel] nested nodes; [safe] refuses tuples. *)
Fixpoint load (safe : bool) (fuel : nat) (bs : bytes)
  : option (doc string * bytes) :=
  match fuel, bs with
  | S fuel', tag :: rest =>
      let items :=
        fix items (n : nat) (bs : bytes)
          : option (list (doc string) * bytes) :=
          match n, bs with
          | S n', b :: rest =>
              if Byte.eqb b t_end then Some ([], rest)
              else match load safe fuel' bs with
                   | Some (d, rest1) =>
                       match items n' rest1 with
                       | Some (ds, rest2) => Some (d :: ds, rest2)
                       | None => None
                       end
                   | None => None
                   end
          | _, _ => None
          end in
      let entries :=
        fix entries (n : nat) (bs : bytes)
          : option (list (string * doc string) * bytes) :=
          match n, bs with
          | S n', b :: rest =>
              if Byte.eqb b t_end then Some ([], rest)
              else if Byte.eqb b t_key then
                match read_text rest with
                | Some (k, rest1) =>
                    match load safe fuel' rest1 with
                    | Some (v, rest2) =>
                        match entries n' rest2 with
                        | Some (es, rest3) => Some ((k, v) :: es, rest3)
                        | None => None
                        end
                    | None => None
                    end
                | None => None
                end
              else None
          | _, _ => None
          end in
      if Byte.eqb tag t_scalar then
        match read_text rest with
        | Some (t, rest') => Some (DScalar t, rest')
        | None => None
        end
      else if Byte.eqb tag t_seq then
        match items fuel' rest with
        | Some (ds, rest') => Some (DSeq ds, rest')
        | None => None
        end
      else if Byte.eqb tag t_tuple then
        if safe then None
        else match items fuel' rest with
             | Some (ds, rest') => Some (DTuple ds, rest')
             | None => None
             end
      else if Byte.eqb tag t_map then
        match entries fuel' rest with
        | Some (es, rest') => Some (DMap es, rest')
        | None => None
        end
      else None
  | _, _ => None
  end.

(** A whole stream holds one document. *)
Definition load_all (safe : bool) (bs : bytes) : option (doc string) :=
  match load safe (S (length bs)) bs with
  | Some (d, []) => Some d
  | _ => None
  end.

(** [yaml.safe_load] and [yaml.unsafe_load] *)
Definition safe_load : bytes -> option (doc string) := load_all true.
Definition unsafe_load : bytes -> option (doc string) := load_all false.


Definition libs : Libs := {|
  obj := bytes;
  figure := bytes;
  kwargs := unit;
  scalar := string;
  pickle_dump := fun _ x => Some x;
  pickle_load := fun _ b => Some b;
  has_to_csv := fun _ => true;
  to_csv := fun _ x _ => Some (x, true);
  read_csv := fun _ b => Some b;
  savefig := fun _ f _ => Some (f, true);
  yaml_dump := dump;
  yaml_safe_load := safe_load;
  listdir_order := fun l => l
|}.

(** A nested configuration whose keys are not in alphabetical order, and
    one with a tuple for a value. *)
Definition nested : doc string :=
  DMap [ ("name", DScalar "exp1");
         ("model", DMap [ ("lr", DScalar "0.1");
                          ("layers", DSeq [DScalar "64"; DScalar "32"]) ]) ].

Definition with_tuple : doc string :=
  DMap [ ("steps", DTuple [DScalar "1"; DScalar "2"]) ].

End Yaml.

(** ** The on-disk layout and what an operation may touch *)

Definition data_dir (root folder : string) : string :=
  Path.join root [folder; "data"].

(** The path of an artifact in [dir], for the version of a notebook
    config. *)
Definition artifact_path (dir : string) (nb : gmap string string)
    (name format : string) : string :=
  Path.join dir [artifact_file (get nb "version" "v1") name format].

(** A world that differs from [w] only by further system calls and
    output. *)
Definition same_files (w w' : world) : Prop := files w' = files w.

(** The exceptions the operating system raises. *)
Definition os_error (e : exn) : Prop :=
  match e with
  | FileNotFoundError _ | FileExistsError _
  | NotADirectoryError _ | IsADirectoryError _ => True
  | _ => False
  end.

(** ** Version scope *)

(** The entry [q] is named for the version [v]: its name starts with
    [v + "_"]. *)
Definition named_for (v : string) (q : Path.t) : bool :=
  Str.startswith (Path.basename q) (v +:+ "_").

(** Regular files not named for the version [v] are as before. *)
Definition frame (v : string) (w w' : world) : Prop :=
  forall q, named_for v q = false ->
            file_at (files w') q = file_at (files w) q.

(** From a well-formed filesystem, [m] leaves a well-formed filesystem in
    which regular files not named for [v] are as before, and what it
    returns satisfies [Q]. *)
Definition scoped {A} (v : string) (Q : A -> Prop) (m : M A) : Prop :=
  forall w, wf_fs (files w) ->
    wf_fs (files (m w).1) /\ frame v w (m w).1
    /\ forall a, (m w).2 = inr a -> Q a.

Definition any {A} (_ : A) : Prop := True.

(** ** [print_config] *)

Section PrintConfig.

Context {L : Libs}.

(** Python's [str] on a value that is not a mapping. *)
Variable str : doc scalar -> string.




End PrintConfig.









(** ** What an operation may do to the world *)

(** Every run of [m] relates the filesystem before to the filesystem
    after, whether [m] returns or raises. *)
Definition preserves {A : Type} (R : gmap Path.t node -> gmap Path.t node -> Prop)
    (m : M A) : Prop :=
  forall w, R (files w) (files (m w).1).

(** [m] prints nothing. *)
Definition quiet {A : Type} (m : M A) : Prop :=
  forall w, stdout (m w).1 = stdout w.


(** The filesystem is as it was. *)
Definition unchanged (fs fs' : gmap Path.t node) : Prop := fs' = fs.

(** Entries were at most removed: what remains is as it was. *)
Definition shrinks (fs fs' : gmap Path.t node) : Prop := fs' ⊆ fs.

(** No entry was removed, and no directory replaced. *)
Definition keeps_entries (fs fs' : gmap Path.t node) : Prop :=
  forall q, (is_Some (fs !! q) -> is_Some (fs' !! q))
            /\ (fs !! q = Some Dir -> fs' !! q = Some Dir).

(** Regular files outside [S] are as they were. *)
Definition touches (S : Path.t -> Prop) (fs fs' : gmap Path.t node) : Prop :=
  forall q, ~ S q -> file_at fs' q = file_at fs q.

(** What [open] for writing at [p], followed by writes, does to the
    filesystem: nothing, or a regular file at [p] where no directory was. *)
Definition wrote_at (p : string) (fs fs' : gmap Path.t node) : Prop :=
  fs' = fs
  \/ exists c, fs' = <[Path.resolve p := File c]> fs
               /\ fs !! Path.resolve p <> Some Dir.

(** What [os.makedirs] does to the filesystem: entries are kept and
    regular files are as they were. *)
Definition made_dirs (fs fs' : gmap Path.t node) : Prop :=
  (forall q n, fs !! q = Some n -> fs' !! q = Some n)
  /\ forall q, file_at fs' q = file_at fs q.

(** What [os.remove] at [p] does to the filesystem: nothing, or the
    regular file at [p] is gone. *)
Definition removed_at (p : string) (fs fs' : gmap Path.t node) : Prop :=
  fs' = fs
  \/ (fs' = delete (Path.resolve p) fs
      /\ exists c, fs !! Path.resolve p = Some (File c)).

(** What pruning may change, seen from one path [q]: from a well-formed
    filesystem, a well-formed filesystem with the same entry at [q]. *)
Definition kept_at (q : Path.t) (fs fs' : gmap Path.t node) : Prop :=
  wf_fs fs -> wf_fs fs' /\ fs' !! q = fs !! q.

(** [k] writes through the file object it is given, or leaves the
    filesystem alone. *)
Definition writer {A : Type} (k : Path.t -> M A) : Prop :=
  forall f w,
    files (k f w).1 = files w
    \/ exists c, files (k f w).1 = <[f := File c]> (files w).

(** * Properties *)

(** ** Strings and paths *)

Example join_demo :
  Path.join "/tmp/root" ["exp1"; "data"] = "/tmp/root/exp1/data"
  /\ Path.join "/tmp/root/" ["exp1"] = "/tmp/root/exp1"
  /\ Path.join "/tmp/root" ["/abs"; "data"] = "/abs/data"
  /\ Path.resolve "/tmp//root/exp1/" = ["tmp"; "root"; "exp1"].
Proof. repeat split; reflexivity. Qed.

Section PathFacts.

Implicit Types (d n s : string) (q : Path.t).

Lemma is_empty_true s : Str.is_empty s = true <-> s = "".
Proof. destruct s; simpl; split; congruence. Qed.

Lemma has_slash_app s1 s2 :
  Str.has_slash (s1 +:+ s2) = Str.has_slash s1 || Str.has_slash s2.
Proof.
  induction s1 as [|c s1 IH]; simpl; [done|].
  rewrite IH. by destruct (Ascii.eqb c "/").
Qed.

Lemma valid_name_inv n :
  Path.valid_name n = true -> Str.is_empty n = false /\ Str.has_slash n = false.
Proof.
  unfold Path.valid_name. rewrite andb_true_iff, !negb_true_iff. tauto.
Qed.

Lemma startswith_slash n :
  Str.has_slash n = false -> Str.startswith n "/" = false.
Proof.
  destruct n as [|c n]; simpl; [done|].
  intros [Hc _]%orb_false_iff.
  by rewrite Hc.
Qed.

Lemma split_name n : Str.has_slash n = false -> Path.split n = (n, []).
Proof.
  induction n as [|c n IH]; simpl; [done|].
  intros [Hc Hn]%orb_false_iff. by rewrite (IH Hn), Hc.
Qed.

Lemma cons_name_app h q q' :
  Path.cons_name h (q ++ q') = Path.cons_name h q ++ q'.
Proof. unfold Path.cons_name. by destruct (Str.is_empty h). Qed.

Lemma cons_name_valid n : Path.valid_name n = true -> Path.cons_name n [] = [n].
Proof.
  intros [Hn _]%valid_name_inv. unfold Path.cons_name. by rewrite Hn.
Qed.

(** Appending ["/" + n] to a path string appends the name [n] to the
    path it resolves to. *)
Lemma split_app_sep d n :
  Path.valid_name n = true ->
  Path.split (d +:+ String "/" n)
  = ((Path.split d).1, (Path.split d).2 ++ [n]).
Proof.
  intros Hn. destruct (valid_name_inv n Hn) as [_ Hs].
  induction d as [|c d IH]; simpl.
  - by rewrite (split_name n Hs), (cons_name_valid n Hn).
  - rewrite IH. destruct (Path.split d) as [h q]; simpl.
    destruct (Ascii.eqb c "/"); [|done]. by rewrite cons_name_app.
Qed.

Lemma split_app_end d n :
  Str.endswith_slash d = true -> Path.valid_name n = true ->
  Path.split (d +:+ n) = ((Path.split d).1, (Path.split d).2 ++ [n]).
Proof.
  intros Hd Hn. destruct (valid_name_inv n Hn) as [_ Hs].
  induction d as [|c d IH]; [done|].
  destruct d as [|c' d].
  - simpl in Hd. simpl. rewrite Hd.
    by rewrite (split_name n Hs), (cons_name_valid n Hn).
  - specialize (IH Hd). change (String c (String c' d) +:+ n)
      with (String c (String c' d +:+ n)).
    cbn [Path.split]. cbn [Path.split] in IH. rewrite IH.
    destruct (Path.split d) as [h q].
    destruct (Ascii.eqb c' "/"), (Ascii.eqb c "/"); simpl;
      by rewrite ?cons_name_app.
Qed.

Lemma resolve_join2 d n :
  Path.valid_name n = true ->
  Path.resolve (Path.join2 d n) = Path.resolve d ++ [n].
Proof.
  intros Hn. destruct (valid_name_inv n Hn) as [_ Hs].
  unfold Path.join2. rewrite (startswith_slash n Hs).
  destruct (Str.is_empty d) eqn:He; simpl.
  - apply is_empty_true in He as ->. unfold Path.resolve. simpl.
    by rewrite (split_name n Hs), (cons_name_valid n Hn).
  - unfold Path.resolve. destruct (Str.endswith_slash d) eqn:Hd.
    + rewrite (split_app_end d n Hd Hn).
      destruct (Path.split d); simpl. by rewrite cons_name_app.
    + rewrite (split_app_sep d n Hn).
      destruct (Path.split d); simpl. by rewrite cons_name_app.
Qed.

Lemma basename_snoc q n : Path.basename (q ++ [n]) = n.
Proof. unfold Path.basename. apply last_last. Qed.

(** Resolution only produces valid names. *)
Lemma split_valid s :
  Str.has_slash (Path.split s).1 = false
  /\ forallb Path.valid_name (Path.split s).2 = true.
Proof.
  induction s as [|c s [IH1 IH2]]; simpl; [done|].
  destruct (Path.split s) as [h q]; simpl in *.
  destruct (Ascii.eqb c "/") eqn:Hc; simpl.
  - split; [done|]. unfold Path.cons_name.
    destruct (Str.is_empty h) eqn:He; simpl; [done|].
    rewrite IH2. unfold Path.valid_name. by rewrite He, IH1.
  - by rewrite Hc, IH1.
Qed.

Lemma resolve_valid s : forallb Path.valid_name (Path.resolve s) = true.
Proof.
  unfold Path.resolve. destruct (split_valid s) as [H1 H2].
  destruct (Path.split s) as [h q]; simpl in *. unfold Path.cons_name.
  destruct (Str.is_empty h) eqn:He; simpl; [done|].
  rewrite H2. unfold Path.valid_name. by rewrite He, H1.
Qed.

End PathFacts.

(** ** Failures that precede every effect *)

Section EarlyFailures.

Context {L : Libs}.

Lemma getitem_missing (nb : gmap string string) k w :
  nb !! k = None -> getitem nb k w = (w, inl (KeyError k)).
Proof. intros H. unfold getitem. by rewrite H. Qed.

Lemma getitem_present (nb : gmap string string) k v w :
  nb !! k = Some v -> getitem nb k w = (w, inr v).
Proof. intros H. unfold getitem. by rewrite H. Qed.

(** C9: an artifact operation given a notebook config without the key
    ["name"] raises [KeyError] at once: the world, with its record of
    system calls and its files, is the one before the call. *)
Theorem missing_name_raises_first (root : option string)
    (nb : gmap string string) (fig : figure) (x : obj)
    (name format : string) (verbose : Z) (kw : kwargs) (d f : bool)
    (w : world) :
  nb !! "name" = None ->
  save_figure root nb fig name format verbose kw w
    = (w, inl (KeyError "name"))
  /\ save_data root nb x name format verbose kw w
    = (w, inl (KeyError "name"))
  /\ load_data root nb name format verbose kw w
    = (w, inl (KeyError "name"))
  /\ (d || f = true ->
      clear_data_and_figure root nb d f verbose w
        = (w, inl (KeyError "name"))).
Proof.
  intros H. repeat split.
  - unfold save_figure, bind. by rewrite getitem_missing.
  - unfold save_data, bind. by rewrite getitem_missing.
  - unfold load_data, bind. by rewrite getitem_missing.
  - intros Hdf. unfold clear_data_and_figure, bind.
    destruct d, f; try discriminate; simpl; by rewrite getitem_missing.
Qed.

(** C8: [load_data] on a notebook config with a name, when nothing
    exists at the resolved artifact path, raises [FileNotFoundError]
    after the existence test alone, whatever the format. *)
Theorem load_data_missing (root folder : string)
    (nb : gmap string string) (name format : string) (verbose : Z)
    (kw : kwargs) (w : world) :
  let path := artifact_path (data_dir root folder) nb name format in
  nb !! "name" = Some folder ->
  OS.exists_b (files w) path = false ->
  load_data (Some root) nb name format verbose kw w
  = (World (files w) (calls w ++ [Stat path]) (stdout w),
     inl (FileNotFoundError ("Data file not found: " +:+ path))).
Proof.
  intros path Hn He. unfold load_data, bind.
  rewrite (getitem_present _ _ _ _ Hn). cbn [OS.path_join ret].
  unfold OS.path_exists, bind, log. cbn [files].
  fold (data_dir root folder). fold (artifact_path (data_dir root folder) nb name format).
  fold path. by rewrite He.
Qed.

(** C2, amended: with the root unset, every operation that resolves a
    path raises before any system call, output or change of file: the
    [TypeError] of [os.path.join], or the [KeyError] of a notebook config
    without a name.  Pruning with both flags false resolves no path and
    returns. *)
Theorem unset_root_fails_before_effects (nb : gmap string string)
    (folder suffix : string) (config : doc scalar) (fig : figure)
    (x : obj) (name format : string) (verbose : Z) (kw : kwargs)
    (d f : bool) (w : world) :
  let failed {A} (r : world * (exn + A)) :=
    r = (w, inl (TypeError msg_join_none))
    \/ r = (w, inl (KeyError "name")) in
  failed (load_configs None folder suffix w)
  /\ failed (save_configs None folder config suffix w)
  /\ failed (initialise_config None folder verbose w)
  /\ failed (save_figure None nb fig name format verbose kw w)
  /\ failed (save_data None nb x name format verbose kw w)
  /\ failed (load_data None nb name format verbose kw w)
  /\ (if negb d && negb f
      then clear_data_and_figure None nb d f verbose w
           = when (0 <? verbose)
               (print "No action taken. Both data and figure flags are set to False.") w
      else failed (clear_data_and_figure None nb d f verbose w)).
Proof.
  intros failed. unfold failed.
  repeat split; try (left; reflexivity).
  - unfold save_figure, bind, getitem. destruct (nb !! "name"); auto.
  - unfold save_data, bind, getitem. destruct (nb !! "name"); auto.
  - unfold load_data, bind, getitem. destruct (nb !! "name"); auto.
  - unfold clear_data_and_figure. destruct (negb d && negb f); [done|].
    unfold bind, getitem. destruct (nb !! "name"); auto.
Qed.

End EarlyFailures.

(** C2, as stated, fails: with the root unset, pruning with both flags
    false returns normally. *)
Lemma unset_root_noop_prune_returns :
  ~ (forall (nb : gmap string string) (d f : bool) (w : world),
        exists w' e,
          clear_data_and_figure (L := Demo.libs) None nb d f 0 w
          = (w', inl e)).
Proof.
  intros H. destruct (H Demo.nb_v1 false false (Demo.start ∅)) as (w' & e & He).
  vm_compute in He. discriminate He.
Qed.

(** ** Pruning one kind of artifact *)

(** C1: on a folder holding [data/v1_a.pkl], [data/v2_a.pkl] and
    [figures/v1_plot.png], pruning version [v1] with [data=True] and
    [figure=False] removes the data artifact of [v1], keeps that of [v2],
    and removes the figure as well: after the test that both flags are
    false, the flags are not consulted again. *)
Theorem prune_data_only_removes_figure :
  let w := Demo.start Demo.two_versions in
  let r := clear_data_and_figure (L := Demo.libs) (Some "/tmp/root")
             Demo.nb_v1 true false 0 w in
  r.2 = inr tt
  /\ file_at (files r.1) Demo.data_v1 = None
  /\ file_at (files r.1) Demo.data_v2 = Some [Byte.x02]
  /\ file_at (files w) Demo.figure_v1 = Some [Byte.x03]
  /\ file_at (files r.1) Demo.figure_v1 = None.
Proof. vm_compute. repeat split; reflexivity. Qed.

(** ** How the operations step *)

Section Steps.

Lemma bind_inr {A B} (m : M A) (k : A -> M B) w w' b :
  bind m k w = (w', inr b) ->
  exists w1 a, m w = (w1, inr a) /\ k a w1 = (w', inr b).
Proof.
  unfold bind. destruct (m w) as [w1 [e|a]]; [discriminate|]. eauto.
Qed.

Lemma bind_inl {A B} (m : M A) (k : A -> M B) w w' e :
  bind m k w = (w', inl e) ->
  m w = (w', inl e)
  \/ exists w1 a, m w = (w1, inr a) /\ k a w1 = (w', inl e).
Proof.
  unfold bind. destruct (m w) as [w1 [e1|a]]; intros H.
  - left. by injection H as -> ->.
  - right. eauto.
Qed.

Lemma bind_step {A B} (m : M A) (k : A -> M B) w w1 a :
  m w = (w1, inr a) -> bind m k w = k a w1.
Proof. unfold bind. by intros ->. Qed.

Lemma getitem_inr (nb : gmap string string) k w w' v :
  getitem nb k w = (w', inr v) -> nb !! k = Some v /\ w' = w.
Proof. unfold getitem, ret, raise. destruct (nb !! k); naive_solver. Qed.

Lemma path_join_inr root ps w w' p :
  OS.path_join root ps w = (w', inr p) ->
  exists r, root = Some r /\ p = Path.join r ps /\ w' = w.
Proof. unfold OS.path_join, ret, raise. destruct root; naive_solver. Qed.

Lemma path_exists_eq p w :
  OS.path_exists p w
  = (World (files w) (calls w ++ [Stat p]) (stdout w),
     inr (OS.exists_b (files w) p)).
Proof. reflexivity. Qed.

Lemma when_files (c : bool) (m : M unit) w :
  (c = true -> same_files w (m w).1) -> same_files w (when c m w).1.
Proof. destruct c; simpl; [auto|done]. Qed.

Lemma print_files s w : same_files w (print s w).1.
Proof. done. Qed.

Lemma when_print_inr (c : bool) s w :
  exists w', when c (print s) w = (w', inr tt) /\ same_files w w'.
Proof. destruct c; simpl; eexists; split; reflexivity. Qed.

Lemma absent_os_error (p : string) (pre todo : list string)
    (fs : gmap (list string) node) :
  os_error (OS.absent p pre todo fs).
Proof.
  revert pre. induction todo as [|n rest IH]; intros pre; [done|].
  cbn [OS.absent]. by destruct (fs !! (pre ++ [n])) as [[|c]|].
Qed.

(** A successful [open] for writing: the path is not a directory, does
    not end with a separator, and now holds an empty file. *)
Lemma open_w_inr p w w' f :
  OS.open_w p w = (w', inr f) ->
  f = Path.resolve p /\ f <> []
  /\ Str.is_empty p = false /\ Str.endswith_slash p = false
  /\ files w' = <[f := File []]> (files w).
Proof.
  unfold OS.open_w, bind, log. cbn [files calls stdout set_files].
  destruct (Str.is_empty p); [discriminate|].
  destruct (Path.resolve p) as [|n q] eqn:Hq; [discriminate|].
  cbn [node_at]. intros H.
  repeat (case_match; try discriminate);
    injection H as <- <-; done.
Qed.

Lemma write_eq f b w :
  OS.write f b w = (set_files (<[f := File b]> (files w)) w, inr tt).
Proof. reflexivity. Qed.

(** Reading back a regular file. *)
Lemma read_file p c w :
  Str.is_empty p = false -> Str.endswith_slash p = false ->
  Path.resolve p <> [] ->
  files w !! Path.resolve p = Some (File c) ->
  OS.read p w = (World (files w) (calls w ++ [OpenR p]) (stdout w), inr c).
Proof.
  intros He Hs Hq Hf. unfold OS.read, bind, log. cbn [files].
  rewrite He. destruct (Path.resolve p); [done|]. cbn [node_at].
  by rewrite Hf, Hs.
Qed.

Lemma exists_file p c fs :
  Str.is_empty p = false -> Str.endswith_slash p = false ->
  Path.resolve p <> [] ->
  fs !! Path.resolve p = Some (File c) ->
  OS.exists_b fs p = true.
Proof.
  intros He Hs Hq Hf. unfold OS.exists_b. rewrite He.
  destruct (Path.resolve p); [done|]. cbn [node_at]. by rewrite Hf, Hs.
Qed.

End Steps.

(** The closing [if verbose > 0: print(...)] of an operation, in a
    hypothesis that the operation returned [w1]: [w1] has the files of the
    world before it. *)
Ltac finish_print H w Hf :=
  match type of H with
  | when ?c (print ?s) ?w0 = (?w1, _) =>
      let Hw := fresh "Hw" in
      destruct (when_print_inr c s w0) as (w & Hw & Hf);
      rewrite Hw in H; injection H as <-; unfold same_files in Hf
  end.

(** ** Directory creation *)

Section Makedirs.

Implicit Types (fs : gmap Path.t node) (q : Path.t).

(** Entries are only ever added. *)
Lemma mkdirs_mono p pre todo fs q n :
  fs !! q = Some n -> (OS.mkdirs p pre todo fs).1 !! q = Some n.
Proof.
  revert pre fs. induction todo as [|a rest IH]; intros pre fs H; [done|].
  cbn [OS.mkdirs]. destruct (fs !! (pre ++ [a])) as [[|c]|] eqn:Hq.
  - by apply IH.
  - done.
  - apply IH. rewrite lookup_insert_ne; [done|].
    intros <-. by rewrite Hq in H.
Qed.

(** No regular file appears, disappears or changes. *)
Lemma mkdirs_file_at p pre todo fs q :
  file_at (OS.mkdirs p pre todo fs).1 q = file_at fs q.
Proof.
  revert pre fs. induction todo as [|a rest IH]; intros pre fs; [done|].
  cbn [OS.mkdirs]. destruct (fs !! (pre ++ [a])) as [[|c]|] eqn:Hq.
  - apply IH.
  - done.
  - rewrite IH. unfold file_at.
    destruct (decide (pre ++ [a] = q)) as [<-|Hne].
    + by rewrite lookup_insert_eq, Hq.
    + by rewrite lookup_insert_ne.
Qed.

(** On success the whole path is a directory. *)
Lemma mkdirs_ok p pre todo fs fs' :
  OS.mkdirs p pre todo fs = (fs', None) ->
  todo <> [] -> fs' !! (pre ++ todo) = Some Dir.
Proof.
  revert pre fs. induction todo as [|a rest IH]; intros pre fs H Hne; [done|].
  cbn [OS.mkdirs] in H.
  replace (pre ++ a :: rest) with ((pre ++ [a]) ++ rest)
    by (by rewrite <- app_assoc).
  destruct rest as [|b rest].
  - rewrite app_nil_r.
    destruct (fs !! (pre ++ [a])) as [[|c]|] eqn:Hq; simpl in H.
    + by injection H as <-.
    + discriminate.
    + injection H as <-. apply lookup_insert_eq.
  - destruct (fs !! (pre ++ [a])) as [[|c]|] eqn:Hq.
    + by apply (IH _ fs).
    + discriminate.
    + by apply (IH _ (<[pre ++ [a] := Dir]> fs)).
Qed.

Lemma mkdirs_error p pre todo fs fs' e :
  OS.mkdirs p pre todo fs = (fs', Some e) -> os_error e.
Proof.
  revert pre fs. induction todo as [|a rest IH]; intros pre fs H; [done|].
  cbn [OS.mkdirs] in H. destruct (fs !! (pre ++ [a])) as [[|c]|]; eauto.
  injection H as _ <-. by destruct rest.
Qed.

Lemma mkdirs_wf p pre todo fs :
  wf_fs fs -> forallb Path.valid_name (pre ++ todo) = true ->
  wf_fs (OS.mkdirs p pre todo fs).1.
Proof.
  revert pre fs. induction todo as [|a rest IH]; intros pre fs Hwf Hv; [done|].
  cbn [OS.mkdirs].
  assert (Hv' : forallb Path.valid_name ((pre ++ [a]) ++ rest) = true)
    by (by rewrite <- app_assoc).
  destruct (fs !! (pre ++ [a])) as [[|c]|] eqn:Hq; [by apply IH|done|].
  apply IH; [|done]. apply map_Forall_insert_2; [|done].
  rewrite forallb_app in Hv'. by apply andb_true_iff in Hv' as [? _].
Qed.

Lemma makedirs_files p w :
  files (OS.makedirs p w).1
  = if Str.is_empty p then files w
    else (OS.mkdirs p [] (Path.resolve p) (files w)).1.
Proof.
  unfold OS.makedirs, bind, log. cbn [files calls stdout].
  destruct (Str.is_empty p); [done|].
  by destruct (OS.mkdirs _ _ _ _) as [fs [e|]].
Qed.

Lemma makedirs_mono p w q n :
  files w !! q = Some n -> files (OS.makedirs p w).1 !! q = Some n.
Proof.
  intros H. rewrite makedirs_files. destruct (Str.is_empty p); [done|].
  by apply mkdirs_mono.
Qed.

Lemma makedirs_file_at p w q :
  file_at (files (OS.makedirs p w).1) q = file_at (files w) q.
Proof.
  rewrite makedirs_files. destruct (Str.is_empty p); [done|].
  apply mkdirs_file_at.
Qed.

Lemma makedirs_wf p w : wf_fs (files w) -> wf_fs (files (OS.makedirs p w).1).
Proof.
  intros H. rewrite makedirs_files. destruct (Str.is_empty p); [done|].
  apply mkdirs_wf; [done|]. apply resolve_valid.
Qed.

Lemma makedirs_inr p w w' :
  OS.makedirs p w = (w', inr tt) ->
  Str.is_empty p = false /\ is_dir (files w') (Path.resolve p).
Proof.
  unfold OS.makedirs, bind, log. cbn [files calls stdout].
  destruct (Str.is_empty p); [discriminate|].
  destruct (OS.mkdirs _ _ _ _) as [fs [e|]] eqn:Hm; [discriminate|].
  intros [= <-]. split; [done|]. unfold is_dir, node_at. cbn [files set_files].
  destruct (Path.resolve p) as [|a q] eqn:Hq; [done|].
  by apply (mkdirs_ok _ _ _ _ _ Hm).
Qed.

Lemma makedirs_inl p w w' e :
  OS.makedirs p w = (w', inl e) -> os_error e.
Proof.
  unfold OS.makedirs, bind, log. cbn [files calls stdout].
  destruct (Str.is_empty p); [by intros [= _ <-]|].
  destruct (OS.mkdirs _ _ _ _) as [fs [e'|]] eqn:Hm; [|discriminate].
  intros [= _ <-]. by eapply mkdirs_error.
Qed.

Lemma exists_dir p fs :
  Str.is_empty p = false -> is_dir fs (Path.resolve p) ->
  OS.exists_b fs p = true.
Proof. unfold OS.exists_b, is_dir. by intros -> ->. Qed.

Lemma node_at_mono fs fs' q :
  (forall q' n, fs !! q' = Some n -> fs' !! q' = Some n) ->
  is_dir fs q -> is_dir fs' q.
Proof. unfold is_dir, node_at. destruct q; auto. Qed.

End Makedirs.

(** ** Initialisation *)

Section Initialise.

Context {L : Libs}.

(** C4: after a call of [initialise_config] that returned, a second call
    for the same folder returns as well and leaves every entry of the
    filesystem as the first call left it. *)
Theorem initialise_config_idempotent (root : option string)
    (folder : string) (verbose verbose' : Z) (w w1 : world) :
  initialise_config root folder verbose w = (w1, inr tt) ->
  exists w2,
    initialise_config root folder verbose' w1 = (w2, inr tt)
    /\ files w2 = files w1.
Proof.
  unfold initialise_config. intros H.
  apply bind_inr in H as (w0 & fp & Hj & H).
  apply path_join_inr in Hj as (r & -> & -> & ->).
  rewrite (bind_step _ _ w1 w1 (Path.join r [folder])) by done.
  rewrite (bind_step _ _ _ _ _ (path_exists_eq _ w)) in H.
  rewrite (bind_step _ _ _ _ _ (path_exists_eq _ w1)).
  set (fp := Path.join r [folder]) in *.
  assert (He : OS.exists_b (files w1) fp = true).
  { destruct (OS.exists_b (files w) fp) eqn:He; cbn [negb] in H.
    - destruct (when_print_inr (0 <? verbose)
        ("Folder " +:+ fp +:+ " already exists. No changes made.")
        (World (files w) (calls w ++ [Stat fp]) (stdout w))) as (w' & Hw & Hf).
      rewrite Hw in H. injection H as <-. by rewrite Hf.
    - apply bind_inr in H as (wa & [] & Ha & H).
      apply bind_inr in H as (wb & [] & Hb & H).
      apply bind_inr in H as (wc & [] & Hc & H).
      destruct (when_print_inr (0 <? verbose)
        ("Created folder structure at " +:+ fp) wc) as (w' & Hw & Hf).
      rewrite Hw in H. injection H as <-.
      apply makedirs_inr in Ha as [Hne Hdir].
      apply exists_dir; [done|]. rewrite Hf.
      assert (Hwb : wb = (OS.makedirs (Path.join fp ["data"]) wa).1)
        by (by rewrite Hb).
      assert (Hwc : wc = (OS.makedirs (Path.join fp ["figures"]) wb).1)
        by (by rewrite Hc).
      eapply node_at_mono; [|exact Hdir].
      intros q' n Hq. rewrite Hwc. apply makedirs_mono.
      rewrite Hwb. by apply makedirs_mono. }
  rewrite He. cbn [negb].
  destruct (when_print_inr (0 <? verbose')
    ("Folder " +:+ fp +:+ " already exists. No changes made.")
    (World (files w1) (calls w1 ++ [Stat fp]) (stdout w1))) as (w' & Hw & Hf).
  exists w'. split; [done|]. by rewrite Hf.
Qed.

End Initialise.

(** ** Round trips *)

Section RoundTrips.

Context {L : Libs}.

(** C6: an object that [pickle] restores from what it dumped is returned
    by [load_data] after a [save_data] that returned, for the same notebook
    config, artifact name and the format ["pkl"]. *)
Theorem pickle_round_trip (root : option string) (nb : gmap string string)
    (x : obj) (name : string) (verbose verbose' : Z) (kw kw' : kwargs)
    (w w1 : world) :
  (forall b, pickle_dump kw x = Some b -> pickle_load kw' b = Some x) ->
  save_data root nb x name "pkl" verbose kw w = (w1, inr tt) ->
  exists w2,
    load_data root nb name "pkl" verbose' kw' w1 = (w2, inr x)
    /\ files w2 = files w1.
Proof.
  intros Hrt H. unfold save_data in H.
  apply bind_inr in H as (w0 & folder & Hg & H).
  apply getitem_inr in Hg as [Hn ->].
  apply bind_inr in H as (w0 & dp & Hj & H).
  apply path_join_inr in Hj as (r & -> & -> & ->).
  rewrite (bind_step _ _ _ _ _ (path_exists_eq _ w)) in H.
  apply bind_inr in H as (wa & [] & _ & H).
  apply bind_inr in H as (wb & [] & Hb & H).
  change (String.eqb "pkl" "pkl") with true in Hb. cbn iota in Hb.
  apply bind_inr in Hb as (wo & f & Ho & Hb).
  apply open_w_inr in Ho as (-> & Hne & Hemp & Hsl & Hfo).
  destruct (pickle_dump kw x) as [b|] eqn:Hp; [|discriminate].
  rewrite write_eq in Hb. injection Hb as <-.
  finish_print H w' Hf.
  match type of Hemp with
  | Str.is_empty ?p = false => set (path := p) in *
  end.
  assert (Hfile : files w' !! Path.resolve path = Some (File b)).
  { rewrite Hf. cbn [files set_files]. apply lookup_insert_eq. }
  unfold load_data.
  rewrite (bind_step _ _ _ _ _ (getitem_present _ _ _ w' Hn)).
  cbn [OS.path_join]. rewrite (bind_step _ _ w' w' _ eq_refl).
  fold path. rewrite (bind_step _ _ _ _ _ (path_exists_eq _ w')).
  rewrite (exists_file path b (files w') Hemp Hsl Hne Hfile).
  cbn [negb when]. rewrite (bind_step _ _ _ _ tt eq_refl).
  change (String.eqb "pkl" "pkl") with true. cbn iota.
  set (wr := World (files w') (calls w' ++ [Stat path]) (stdout w')).
  assert (Hread : OS.read path wr
    = (World (files wr) (calls wr ++ [OpenR path]) (stdout wr), inr b))
    by (by apply read_file).
  set (wr' := World (files wr) (calls wr ++ [OpenR path]) (stdout wr)) in *.
  destruct (when_print_inr (0 <? verbose') ("Data loaded from " +:+ path) wr')
    as (w2 & Hw2 & Hf2).
  exists w2. split; [|by rewrite Hf2].
  unfold bind at 1. unfold bind at 1. rewrite Hread, (Hrt b eq_refl).
  unfold ret at 1. by rewrite (bind_step _ _ _ _ _ Hw2).
Qed.

(** C5, amended: after a [save_configs] that returned, [load_configs] for
    the same folder and suffix gives what [yaml.safe_load] makes of the
    bytes that [yaml.dump] wrote with [sort_keys=False], or raises its
    error, and changes no file.  So a configuration document comes back,
    with the same entries in the same order and equal values, when
    [yaml.safe_load] restores it from what [yaml.dump] wrote. *)
Theorem config_round_trip (root : option string) (folder suffix : string)
    (config : doc scalar) (w w1 : world) :
  save_configs root folder config suffix w = (w1, inr tt) ->
  exists w2,
    files w2 = files w1
    /\ load_configs root folder suffix w1
       = (w2, match yaml_safe_load (yaml_dump false config) with
              | Some loaded => inr loaded
              | None => inl (LibraryError "yaml")
              end)
    /\ (yaml_safe_load (yaml_dump false config) = Some config ->
        load_configs root folder suffix w1 = (w2, inr config)).
Proof.
  intros H. unfold save_configs in H.
  apply bind_inr in H as (w0 & cp & Hj & H).
  apply path_join_inr in Hj as (r & -> & -> & ->).
  apply bind_inr in H as (wo & f & Ho & H).
  apply open_w_inr in Ho as (-> & Hne & Hemp & Hsl & Hfo).
  rewrite write_eq in H. injection H as <-.
  match type of Hemp with
  | Str.is_empty ?p = false => set (path := p) in *
  end.
  set (w1 := set_files _ wo).
  assert (Hfile : files w1 !! Path.resolve path
                  = Some (File (yaml_dump false config)))
    by apply lookup_insert_eq.
  unfold load_configs. cbn [OS.path_join].
  rewrite (bind_step _ _ w1 w1 _ eq_refl). fold path.
  rewrite (bind_step _ _ _ _ _
             (read_file path _ w1 Hemp Hsl Hne Hfile)).
  exists (World (files w1) (calls w1 ++ [OpenR path]) (stdout w1)).
  split; [reflexivity|]. split.
  - by destruct (yaml_safe_load (yaml_dump false config)).
  - by intros ->.
Qed.

End RoundTrips.

(** C5, as stated, fails: a mapping with a string key and a tuple for its
    value is saved by [save_configs], and [load_configs] does not return
    it: [yaml.dump] writes the tuple under the tag [!!python/tuple], which
    [yaml.safe_load] refuses. *)
Lemma config_round_trip_fails_for_tuple :
  ~ (forall (config : doc string) (w w1 : world),
        save_configs (L := Yaml.libs) (Some "/tmp/root") "exp1" config "v1" w
        = (w1, inr tt) ->
        exists w2,
          load_configs (L := Yaml.libs) (Some "/tmp/root") "exp1" "v1" w1
          = (w2, inr config)).
Proof.
  intros H.
  pose (w := Demo.start Demo.skeleton).
  pose (w1 := (save_configs (L := Yaml.libs) (Some "/tmp/root") "exp1"
                 Yaml.with_tuple "v1" w).1).
  assert (Hs : save_configs (L := Yaml.libs) (Some "/tmp/root") "exp1"
                 Yaml.with_tuple "v1" w = (w1, inr tt))
    by (vm_compute; reflexivity).
  destruct (H Yaml.with_tuple w w1 Hs) as [w2 Hl].
  vm_compute in Hl. discriminate Hl.
Qed.

(** The stand-in at work: insertion order is kept with [sort_keys=False]
    and lost with [sort_keys=True]; the tuple is refused by the safe loader
    alone. *)
Example yaml_stand_in :
  Yaml.safe_load (Yaml.dump false Yaml.nested) = Some Yaml.nested
  /\ Yaml.safe_load (Yaml.dump true Yaml.nested) <> Some Yaml.nested
  /\ Yaml.safe_load (Yaml.dump false Yaml.with_tuple) = None
  /\ Yaml.unsafe_load (Yaml.dump false Yaml.with_tuple)
     = Some Yaml.with_tuple.
Proof.
  repeat split; try (vm_compute; reflexivity).
  vm_compute. discriminate.
Qed.

(** ** Failures of [save_data] *)

Section SaveDataFailures.

Context {L : Libs}.

Lemma open_w_inl p w w' e :
  OS.open_w p w = (w', inl e) -> os_error e /\ files w' = files w.
Proof.
  unfold OS.open_w, bind, log. cbn [files calls stdout set_files].
  intros H. repeat (case_match; try discriminate);
    injection H as <- <-; first [done|split; [apply absent_os_error|done]].
Qed.

(** Whether [os.makedirs] succeeds depends on the files alone. *)
Lemma makedirs_result p w w0 :
  files w0 = files w -> (OS.makedirs p w0).2 = (OS.makedirs p w).2.
Proof.
  intros H. unfold OS.makedirs, bind, log. cbn [files calls stdout].
  rewrite H. destruct (Str.is_empty p); [done|].
  by destruct (OS.mkdirs _ _ _ _) as [fs [e|]].
Qed.

Lemma eqb_false_of_ne (s t : string) : s <> t -> String.eqb s t = false.
Proof. apply String.eqb_neq. Qed.

(** Whatever the notebook config, the root and the filesystem, a call with
    a format other than ["pkl"] and ["csv"] raises, and no regular file is
    created or changed. *)
Lemma save_data_unsupported_never_writes (root : option string)
    (nb : gmap string string) (x : obj) (name format : string)
    (verbose : Z) (kw : kwargs) (w : world) :
  format <> "pkl" -> format <> "csv" ->
  exists w' e,
    save_data root nb x name format verbose kw w = (w', inl e)
    /\ forall q, file_at (files w') q = file_at (files w) q.
Proof.
  intros Hp Hc. unfold save_data.
  rewrite (eqb_false_of_ne _ _ Hp), (eqb_false_of_ne _ _ Hc).
  unfold bind at 1, getitem.
  destruct (nb !! "name") as [folder|]; [|by eexists _, _].
  destruct root as [r|]; [|by eexists _, _]. cbn [ret OS.path_join].
  rewrite (bind_step _ _ w w _ eq_refl).
  rewrite (bind_step _ _ _ _ _ (path_exists_eq _ w)).
  destruct (OS.exists_b (files w) (Path.join r [folder; "data"]));
    cbn [negb when]; [by eexists _, _|].
  match goal with
  | |- context [bind (OS.makedirs ?p) _ ?w0] =>
      pose proof (makedirs_file_at p w0) as Hf;
      unfold bind at 1; destruct (OS.makedirs p w0) as [wa [e|[]]]
  end; by eexists _, _.
Qed.

(** C7: [save_data] with a format other than ["pkl"] and ["csv"], on a
    notebook config with a name and a data directory that exists or can be
    created, raises the [ValueError] of an unsupported format, and no
    regular file is created or changed. *)
Theorem save_data_unsupported_format (root folder : string)
    (nb : gmap string string) (x : obj) (name format : string)
    (verbose : Z) (kw : kwargs) (w : world) :
  nb !! "name" = Some folder ->
  format <> "pkl" -> format <> "csv" ->
  OS.exists_b (files w) (data_dir root folder) = true
    \/ (OS.makedirs (data_dir root folder) w).2 = inr tt ->
  exists w',
    save_data (Some root) nb x name format verbose kw w
    = (w', inl (ValueError msg_unsupported))
    /\ forall q, file_at (files w') q = file_at (files w) q.
Proof.
  intros Hn Hp Hc Hdir. unfold save_data.
  rewrite (bind_step _ _ _ _ _ (getitem_present _ _ _ w Hn)).
  cbn [OS.path_join]. rewrite (bind_step _ _ w w _ eq_refl).
  fold (data_dir root folder).
  rewrite (bind_step _ _ _ _ _ (path_exists_eq _ w)).
  rewrite (eqb_false_of_ne _ _ Hp), (eqb_false_of_ne _ _ Hc).
  set (w0 := World (files w) (calls w ++ [Stat (data_dir root folder)])
               (stdout w)).
  destruct (OS.exists_b (files w) (data_dir root folder)) eqn:He;
    cbn [negb when].
  - exists w0. split; [reflexivity|done].
  - destruct Hdir as [|Hm]; [discriminate|].
    rewrite <- (makedirs_result _ w w0 eq_refl) in Hm.
    pose proof (makedirs_file_at (data_dir root folder) w0) as Hf.
    destruct (OS.makedirs (data_dir root folder) w0) as [wa [e|[]]] eqn:Ha;
      [discriminate|].
    exists wa. split; [by rewrite (bind_step _ _ _ _ _ Ha)|exact Hf].
Qed.

(** C10: when [save_data] raises one of its two [ValueError]s and the data
    directory did not exist before the call, the directory exists after
    it. *)
Theorem save_data_error_keeps_data_dir (root folder : string)
    (nb : gmap string string) (x : obj) (name format : string)
    (verbose : Z) (kw : kwargs) (w w' : world) (msg : string) :
  nb !! "name" = Some folder ->
  OS.exists_b (files w) (data_dir root folder) = false ->
  save_data (Some root) nb x name format verbose kw w
    = (w', inl (ValueError msg)) ->
  is_dir (files w') (Path.resolve (data_dir root folder))
  /\ OS.exists_b (files w') (data_dir root folder) = true
  /\ (msg = msg_unsupported \/ msg = msg_no_to_csv).
Proof.
  intros Hn He H. unfold save_data in H.
  rewrite (bind_step _ _ _ _ _ (getitem_present _ _ _ w Hn)) in H.
  cbn [OS.path_join] in H. rewrite (bind_step _ _ w w _ eq_refl) in H.
  fold (data_dir root folder) in H.
  rewrite (bind_step _ _ _ _ _ (path_exists_eq _ w)), He in H.
  cbn [negb when] in H.
  apply bind_inl in H as [H|(wa & [] & Ha & H)].
  { by apply makedirs_inl in H. }
  apply makedirs_inr in Ha as [Hemp Hd].
  assert (Hgoal : forall m, w' = wa ->
            m = msg_unsupported \/ m = msg_no_to_csv ->
            is_dir (files w') (Path.resolve (data_dir root folder))
            /\ OS.exists_b (files w') (data_dir root folder) = true
            /\ (m = msg_unsupported \/ m = msg_no_to_csv)).
  { intros m -> Hm. split; [done|]. split; [by apply exists_dir|done]. }
  apply bind_inl in H as [H|(wb & [] & _ & H)].
  2: { match type of H with
       | when ?c (print ?s) ?w0 = _ =>
           destruct (when_print_inr c s w0) as (? & Hw & _);
           rewrite Hw in H; discriminate
       end. }
  destruct (String.eqb format "pkl").
  { apply bind_inl in H as [H|(wo & f & _ & H)].
    - by apply open_w_inl in H as [? _].
    - destruct (pickle_dump kw x); discriminate. }
  destruct (String.eqb format "csv").
  - destruct (has_to_csv x).
    + apply bind_inl in H as [H|(wc & old & _ & H)]; [discriminate|].
      destruct (to_csv kw x old) as [[b returned]|]; [|discriminate].
      apply bind_inl in H as [H|(wo & f & _ & H)].
      { by apply open_w_inl in H as [? _]. }
      apply bind_inl in H as [H|(wd & [] & _ & H)]; [discriminate|].
      destruct returned; discriminate.
    + injection H as <- <-. apply Hgoal; auto.
  - injection H as <- <-. apply Hgoal; auto.
Qed.

End SaveDataFailures.

(** ** Version scope *)

Section NamedFor.

Implicit Types (v n s : string).

Lemma is_empty_app s1 s2 :
  Str.is_empty (s1 +:+ s2) = Str.is_empty s1 && Str.is_empty s2.
Proof. by destruct s1. Qed.

Lemma startswith_app s1 s2 s :
  Str.startswith (s1 +:+ s2 +:+ s) (s1 +:+ s2) = true.
Proof.
  induction s1 as [|c s1 IH]; simpl.
  - induction s2 as [|c s2 IH]; simpl; [done|]. by rewrite Ascii.eqb_refl.
  - by rewrite Ascii.eqb_refl.
Qed.

Lemma artifact_file_valid v name format :
  Str.has_slash v = false -> Str.has_slash name = false ->
  Str.has_slash format = false ->
  Path.valid_name (artifact_file v name format) = true.
Proof.
  intros Hv Hn Hf. unfold Path.valid_name, artifact_file.
  rewrite !has_slash_app, Hv, Hn, Hf, !is_empty_app.
  simpl. by rewrite andb_false_r.
Qed.

(** The artifact of [v] called [name], in any directory, is named for
    [v]. *)
Lemma artifact_named_for dir v name format :
  Str.has_slash v = false -> Str.has_slash name = false ->
  Str.has_slash format = false ->
  named_for v (Path.resolve (Path.join dir [artifact_file v name format]))
  = true.
Proof.
  intros Hv Hn Hf. cbn [Path.join fold_left].
  rewrite resolve_join2 by by apply artifact_file_valid.
  unfold named_for. rewrite basename_snoc. apply startswith_app.
Qed.

(** A name that starts with ["v2_"] does not start with ["v1_"]. *)
Lemma named_for_v2_not_v1 q :
  named_for "v2" q = true -> named_for "v1" q = false.
Proof.
  unfold named_for. generalize (Path.basename q). intros s H.
  destruct s as [|a [|b s]]; simpl in *; try discriminate.
  - destruct (Ascii.eqb a "v"); discriminate.
  - destruct (Ascii.eqb a "v"); simpl in *; [|discriminate].
    destruct (Ascii.eqb_spec b "2") as [->|]; simpl in *;
      [reflexivity|discriminate].
Qed.

End NamedFor.

Section Scoped.

Context {L : Libs}.

(** The version whose artifacts may be touched. *)
Variable v : string.

Lemma frame_refl w : frame v w w.
Proof. by intros q _. Qed.

Lemma frame_trans w1 w2 w3 : frame v w1 w2 -> frame v w2 w3 -> frame v w1 w3.
Proof. intros H1 H2 q Hq. by rewrite H2, H1. Qed.

Lemma frame_same w w' : files w' = files w -> frame v w w'.
Proof. intros H q _. by rewrite H. Qed.

Lemma scoped_same {A} (Q : A -> Prop) (m : M A) :
  (forall w, files (m w).1 = files w) ->
  (forall w a, (m w).2 = inr a -> Q a) ->
  scoped v Q m.
Proof.
  intros Hf HQ w Hwf. rewrite Hf. split; [done|].
  split; [by apply frame_same|apply HQ].
Qed.

Lemma scoped_weaken {A} (Q Q' : A -> Prop) (m : M A) :
  (forall a, Q a -> Q' a) -> scoped v Q m -> scoped v Q' m.
Proof. intros HQ Hm w Hwf. destruct (Hm w Hwf) as (? & ? & ?). eauto. Qed.

Lemma scoped_ret {A} (Q : A -> Prop) a : Q a -> scoped v Q (ret a).
Proof. intros Ha. apply scoped_same; [done|]. by intros w a' [= <-]. Qed.

Lemma scoped_raise {A} (Q : A -> Prop) e : scoped v Q (raise e).
Proof. by apply scoped_same. Qed.

Lemma scoped_bind {A B} (Q : A -> Prop) (Q' : B -> Prop) (m : M A)
    (k : A -> M B) :
  scoped v Q m -> (forall a, Q a -> scoped v Q' (k a)) -> scoped v Q' (bind m k).
Proof.
  intros Hm Hk w Hwf. destruct (Hm w Hwf) as (Hwf1 & Hfr & HQ).
  unfold bind. destruct (m w) as [w1 [e|a]]; simpl in *; [done|].
  destruct (Hk a (HQ a eq_refl) w1 Hwf1) as (? & ? & ?).
  split; [done|]. split; [by eapply frame_trans|done].
Qed.

Lemma scoped_when (c : bool) (m : M unit) :
  scoped v any m -> scoped v any (when c m).
Proof. destruct c; [done|]. intros _. by apply scoped_ret. Qed.

Lemma scoped_log c : scoped v any (log c).
Proof. by apply scoped_same. Qed.

Lemma scoped_print s : scoped v any (print s).
Proof. by apply scoped_same. Qed.

Lemma scoped_getitem (nb : gmap string string) k : scoped v any (getitem nb k).
Proof.
  apply scoped_same; [|done]. intros w. unfold getitem.
  by destruct (nb !! k).
Qed.

Lemma scoped_path_join root ps : scoped v any (OS.path_join root ps).
Proof. apply scoped_same; [|done]. intros w. by destruct root. Qed.

Lemma scoped_path_exists p : scoped v any (OS.path_exists p).
Proof. by apply scoped_same. Qed.

Lemma scoped_content p : scoped v any (OS.content p).
Proof. by apply scoped_same. Qed.

Lemma scoped_makedirs p : scoped v any (OS.makedirs p).
Proof.
  intros w Hwf. split; [by apply makedirs_wf|]. split; [|done].
  intros q _. apply makedirs_file_at.
Qed.

Lemma file_at_insert_ne (fs : gmap Path.t node) q' q n :
  q' <> q -> file_at (<[q' := n]> fs) q = file_at fs q.
Proof. intros H. unfold file_at. by rewrite lookup_insert_ne. Qed.

Lemma file_at_delete_ne (fs : gmap Path.t node) q' q :
  q' <> q -> file_at (delete q' fs) q = file_at fs q.
Proof. intros H. unfold file_at. by rewrite lookup_delete_ne. Qed.

Lemma named_for_ne q q' :
  named_for v q' = true -> named_for v q = false -> q' <> q.
Proof. intros H1 H2 ->. congruence. Qed.

Lemma scoped_open_w p :
  named_for v (Path.resolve p) = true ->
  scoped v (fun f => f = Path.resolve p) (OS.open_w p).
Proof.
  intros Hp w Hwf. destruct (OS.open_w p w) as [w' [e|f]] eqn:Ho; simpl.
  - apply open_w_inl in Ho as [_ Hf]. rewrite Hf.
    split; [done|]. split; [by apply frame_same|done].
  - apply open_w_inr in Ho as (-> & _ & _ & _ & Hf). rewrite Hf. split.
    { apply map_Forall_insert_2; [apply resolve_valid|done]. }
    split; [|by intros a [= <-]].
    intros q Hq. rewrite Hf. apply file_at_insert_ne.
    by apply named_for_ne.
Qed.

Lemma scoped_write p b :
  named_for v (Path.resolve p) = true ->
  scoped v any (OS.write (Path.resolve p) b).
Proof.
  intros Hp w Hwf. rewrite write_eq. cbn [fst snd files set_files]. split.
  { apply map_Forall_insert_2; [apply resolve_valid|done]. }
  split; [|done]. intros q Hq. apply file_at_insert_ne.
  by apply named_for_ne.
Qed.

Lemma remove_files p w :
  files (OS.remove p w).1 = files w
  \/ files (OS.remove p w).1 = delete (Path.resolve p) (files w).
Proof.
  unfold OS.remove, bind, log. cbn [files calls stdout].
  repeat case_match; auto.
Qed.

Lemma scoped_remove p :
  named_for v (Path.resolve p) = true -> scoped v any (OS.remove p).
Proof.
  intros Hp w Hwf. destruct (remove_files p w) as [Hf|Hf]; rewrite Hf.
  - split; [done|]. split; [by apply frame_same|done].
  - split; [by apply map_Forall_delete|]. split; [|done].
    intros q Hq. rewrite Hf. apply file_at_delete_ne. by apply named_for_ne.
Qed.

Lemma child_name_Some q k n : OS.child_name q k = Some n -> k = q ++ [n].
Proof.
  unfold OS.child_name. case_decide as Ht; [|done].
  destruct (drop (length q) k) as [|n' [|]] eqn:Hd; try done.
  intros [= ->]. by rewrite <- (take_drop (length q) k), Ht, Hd.
Qed.

(** The names [os.listdir] reports in a well-formed filesystem are
    valid. *)
Lemma children_valid (fs : gmap Path.t node) q n :
  wf_fs fs -> n ∈ OS.children fs q -> Path.valid_name n = true.
Proof.
  intros Hwf Hn. unfold OS.children in Hn.
  apply list_elem_of_omap in Hn as (k & Hk & Hc).
  apply child_name_Some in Hc. subst k.
  apply list_elem_of_fmap in Hk as ([k' x] & Heq & Hk).
  simpl in Heq. subst k'. apply elem_of_map_to_list in Hk. apply Hwf in Hk. simpl in Hk.
  rewrite forallb_app in Hk. apply andb_true_iff in Hk as [_ Hk].
  simpl in Hk. by rewrite andb_true_r in Hk.
Qed.

(** What [os.listdir] reports is in the directory. *)
Hypothesis listdir_order_sound :
  forall l n, n ∈ listdir_order l -> n ∈ l.

Lemma scoped_listdir p :
  scoped v (fun l => forall n, n ∈ l -> Path.valid_name n = true)
    (OS.listdir listdir_order p).
Proof.
  intros w Hwf. unfold OS.listdir, bind, log. cbn [files calls stdout].
  repeat case_match; simpl; (split; [done|]);
    (split; [by apply frame_same|]); try done.
  intros l [= <-] name Hname. eapply children_valid; [done|].
  by apply listdir_order_sound.
Qed.

Lemma scoped_for_each {A} (l : list A) (body : A -> M unit) :
  (forall a, a ∈ l -> scoped v any (body a)) -> scoped v any (for_each l body).
Proof.
  induction l as [|a l IH]; intros H; simpl; [by apply scoped_ret|].
  eapply scoped_bind; [apply H; left|].
  intros _ _. apply IH. intros a' Ha'. apply H. by right.
Qed.

Lemma scoped_clear_dir dir : scoped v any (clear_dir dir v).
Proof.
  unfold clear_dir. eapply scoped_bind; [apply scoped_listdir|].
  intros l Hl. apply scoped_for_each. intros n Hn.
  destruct (Str.startswith n (v +:+ "_")) eqn:Hs; [|by apply scoped_ret].
  apply scoped_remove. cbn [Path.join fold_left when].
  rewrite resolve_join2 by auto. unfold named_for. by rewrite basename_snoc.
Qed.

(** Pruning the version [v] touches only regular files named for [v]. *)
Lemma scoped_clear (root : option string) (nb : gmap string string)
    (d f : bool) (verbose : Z) :
  get nb "version" "v1" = v ->
  scoped v any (clear_data_and_figure root nb d f verbose).
Proof.
  intros Hv. unfold clear_data_and_figure. rewrite Hv.
  destruct (negb d && negb f); [apply scoped_when, scoped_print|].
  eapply scoped_bind; [apply scoped_getitem|intros folder _].
  eapply scoped_bind; [apply scoped_path_join|intros dp _].
  eapply scoped_bind; [apply scoped_path_exists|intros dpresent _].
  eapply scoped_bind.
  { apply scoped_when. eapply scoped_bind; [apply scoped_clear_dir|].
    intros _ _. apply scoped_when, scoped_print. }
  intros _ _.
  eapply scoped_bind; [apply scoped_path_join|intros fp _].
  eapply scoped_bind; [apply scoped_path_exists|intros fpresent _].
  apply scoped_when. eapply scoped_bind; [apply scoped_clear_dir|].
  intros _ _. apply scoped_when, scoped_print.
Qed.

(** Saving data under the version [v] touches only regular files named for
    [v], when the artifact name is a single path segment. *)
Lemma scoped_save_data (root : option string) (nb : gmap string string)
    (x : obj) (name format : string) (verbose : Z) (kw : kwargs) :
  get nb "version" "v1" = v ->
  Str.has_slash v = false -> Str.has_slash name = false ->
  scoped v any (save_data root nb x name format verbose kw).
Proof.
  intros Hv Hsv Hsn. unfold save_data. rewrite Hv.
  eapply scoped_bind; [apply scoped_getitem|intros folder _].
  eapply scoped_bind; [apply scoped_path_join|intros dp _].
  eapply scoped_bind; [apply scoped_path_exists|intros present _].
  eapply scoped_bind; [apply scoped_when, scoped_makedirs|intros _ _].
  eapply scoped_bind; [|intros _ _; apply scoped_when, scoped_print].
  destruct (String.eqb_spec format "pkl") as [->|_].
  { pose proof (artifact_named_for dp v name "pkl" Hsv Hsn eq_refl) as Hnf.
    eapply scoped_bind; [by apply scoped_open_w|]. intros f ->.
    destruct (pickle_dump kw x); [by apply scoped_write|apply scoped_raise]. }
  destruct (String.eqb_spec format "csv") as [->|_]; [|apply scoped_raise].
  pose proof (artifact_named_for dp v name "csv" Hsv Hsn eq_refl) as Hnf.
  destruct (has_to_csv x); [|apply scoped_raise].
  eapply scoped_bind; [apply scoped_content|intros old _].
  destruct (to_csv kw x old) as [[b returned]|]; [|apply scoped_raise].
  eapply scoped_bind; [by apply scoped_open_w|]. intros f ->.
  eapply scoped_bind; [by apply scoped_write|]. intros _ _.
  apply scoped_when, scoped_raise.
Qed.

(** Saving a figure under the version [v] touches only regular files
    named for [v], when the figure name and the format hold no
    separator. *)
Lemma scoped_save_figure (root : option string) (nb : gmap string string)
    (fig : figure) (name format : string) (verbose : Z) (kw : kwargs) :
  get nb "version" "v1" = v ->
  Str.has_slash v = false -> Str.has_slash name = false ->
  Str.has_slash format = false ->
  scoped v any (save_figure root nb fig name format verbose kw).
Proof.
  intros Hv Hsv Hsn Hsf. unfold save_figure. rewrite Hv.
  eapply scoped_bind; [apply scoped_getitem|intros folder _].
  eapply scoped_bind; [apply scoped_path_join|intros dp _].
  eapply scoped_bind; [apply scoped_path_exists|intros present _].
  eapply scoped_bind; [apply scoped_when, scoped_makedirs|intros _ _].
  eapply scoped_bind; [|intros _ _; apply scoped_when, scoped_print].
  pose proof (artifact_named_for dp v name format Hsv Hsn Hsf) as Hnf.
  destruct (savefig kw fig format) as [[b returned]|]; [|apply scoped_raise].
  eapply scoped_bind; [by apply scoped_open_w|]. intros f ->.
  eapply scoped_bind; [by apply scoped_write|]. intros _ _.
  apply scoped_when, scoped_raise.
Qed.

End Scoped.

(** ** Version isolation *)

(** C3, amended: with artifact names, figure names and figure formats that
    hold no path separator, on a filesystem whose entries bear valid names,
    saving data, saving a figure and pruning under the version ["v1"] leave
    every regular file whose name starts with ["v2_"] as it was: none is
    created, changed or removed. *)
Theorem version_isolation {L : Libs} (root : option string)
    (nb : gmap string string) (x : obj) (fig : figure)
    (data_name data_format fig_name fig_format : string) (verbose : Z)
    (kw : kwargs) (d f : bool) (w : world) (q : Path.t) :
  get nb "version" "v1" = "v1" ->
  Str.has_slash data_name = false ->
  Str.has_slash fig_name = false ->
  Str.has_slash fig_format = false ->
  wf_fs (files w) ->
  (forall l n, n ∈ listdir_order l -> n ∈ l) ->
  named_for "v2" q = true ->
  file_at (files (save_data root nb x data_name data_format verbose kw w).1) q
    = file_at (files w) q
  /\ file_at (files (save_figure root nb fig fig_name fig_format verbose kw w).1) q
    = file_at (files w) q
  /\ file_at (files (clear_data_and_figure root nb d f verbose w).1) q
    = file_at (files w) q.
Proof.
  intros Hv Hd Hn Hf Hwf Hord Hq. apply named_for_v2_not_v1 in Hq.
  repeat split.
  - by apply (scoped_save_data "v1" root nb x data_name data_format verbose kw
                Hv eq_refl Hd w Hwf).
  - by apply (scoped_save_figure "v1" root nb fig fig_name fig_format verbose
                kw Hv eq_refl Hn Hf w Hwf).
  - by apply (scoped_clear "v1" Hord root nb d f verbose Hv w Hwf).
Qed.

(** Well-formedness of a filesystem given by its entries. *)
Ltac wf_entries :=
  repeat (apply map_Forall_insert_2; [reflexivity|]);
  apply map_Forall_empty.

Lemma wf_skeleton : wf_fs Demo.skeleton.
Proof. unfold Demo.skeleton. wf_entries. Qed.

Lemma wf_two_versions : wf_fs Demo.two_versions.
Proof.
  unfold Demo.two_versions. wf_entries.
Qed.

Lemma wf_with_subdir : wf_fs Demo.with_subdir.
Proof.
  unfold Demo.with_subdir. wf_entries.
Qed.

Lemma wf_with_config : wf_fs Demo.with_config.
Proof.
  unfold Demo.with_config, Demo.two_versions. wf_entries.
Qed.

(** C3, as stated, fails: saving under ["v1"] an artifact whose name
    descends into a subdirectory creates a file whose name starts with
    ["v2_"]. *)
Lemma version_isolation_fails_for_nested_names :
  ~ (forall (data_name : string) (w : world) (q : Path.t),
        wf_fs (files w) ->
        named_for "v2" q = true ->
        file_at (files (save_data (L := Demo.libs) (Some "/tmp/root")
                          Demo.nb_v1 [Byte.x01] data_name "pkl" 0 tt w).1) q
        = file_at (files w) q).
Proof.
  intros H.
  specialize (H "sub/v2_x" (Demo.start Demo.with_subdir)
                (Demo.exp1 ++ ["data"; "v1_sub"; "v2_x.pkl"])
                wf_with_subdir eq_refl).
  vm_compute in H. discriminate H.
Qed.

(** ** The theorems at concrete inputs *)

Lemma missing_name_witness :
  (∅ : gmap string string) !! "name" = None
  /\ save_data (L := Demo.libs) (Some "/tmp/root") ∅ [Byte.x01] "res" "pkl"
       0 tt (Demo.start Demo.skeleton)
     = (Demo.start Demo.skeleton, inl (KeyError "name")).
Proof.
  split; [reflexivity|].
  exact (proj1 (proj2 (missing_name_raises_first (L := Demo.libs)
           (Some "/tmp/root") ∅ [] [Byte.x01] "res" "pkl" 0 tt true true
           (Demo.start Demo.skeleton) eq_refl))).
Defined.

Lemma load_data_missing_witness :
  Demo.nb_v1 !! "name" = Some "exp1"
  /\ OS.exists_b Demo.skeleton "/tmp/root/exp1/data/v1_ghost.pkl" = false
  /\ load_data (L := Demo.libs) (Some "/tmp/root") Demo.nb_v1 "ghost" "pkl"
       0 tt (Demo.start Demo.skeleton)
     = (World Demo.skeleton [Stat "/tmp/root/exp1/data/v1_ghost.pkl"] [],
        inl (FileNotFoundError
               "Data file not found: /tmp/root/exp1/data/v1_ghost.pkl")).
Proof.
  assert (Hn : Demo.nb_v1 !! "name" = Some "exp1") by (vm_compute; reflexivity).
  assert (He : OS.exists_b Demo.skeleton "/tmp/root/exp1/data/v1_ghost.pkl"
               = false) by (vm_compute; reflexivity).
  split; [exact Hn|]. split; [exact He|].
  exact (load_data_missing (L := Demo.libs) "/tmp/root" "exp1" Demo.nb_v1
           "ghost" "pkl" 0 tt (Demo.start Demo.skeleton) Hn He).
Defined.

Lemma initialise_twice_witness :
  let w := Demo.start ∅ in
  let w1 := (initialise_config (Some "/tmp/root") "exp1" 1 w).1 in
  initialise_config (Some "/tmp/root") "exp1" 1 w
    = (w1, inr tt)
  /\ exists w2,
       initialise_config (Some "/tmp/root") "exp1" 1 w1
         = (w2, inr tt)
       /\ files w2 = files w1.
Proof.
  intros w w1.
  assert (H : initialise_config (Some "/tmp/root") "exp1" 1 w
              = (w1, inr tt)) by (vm_compute; reflexivity).
  split; [exact H|].
  exact (initialise_config_idempotent _ _ _ 1 _ _ H).
Defined.

Lemma pickle_round_trip_witness :
  let w := Demo.start Demo.skeleton in
  let w1 := (save_data (L := Demo.libs) (Some "/tmp/root") Demo.nb_v1
               [Byte.x01; Byte.x02; Byte.x03] "res" "pkl" 0 tt w).1 in
  save_data (L := Demo.libs) (Some "/tmp/root") Demo.nb_v1
    [Byte.x01; Byte.x02; Byte.x03] "res" "pkl" 0 tt w = (w1, inr tt)
  /\ exists w2,
       load_data (L := Demo.libs) (Some "/tmp/root") Demo.nb_v1 "res" "pkl"
         0 tt w1 = (w2, inr [Byte.x01; Byte.x02; Byte.x03])
       /\ files w2 = files w1.
Proof.
  intros w w1.
  assert (H : save_data (L := Demo.libs) (Some "/tmp/root") Demo.nb_v1
                [Byte.x01; Byte.x02; Byte.x03] "res" "pkl" 0 tt w
              = (w1, inr tt)) by (vm_compute; reflexivity).
  split; [exact H|].
  refine (pickle_round_trip (L := Demo.libs) _ _ _ _ 0 0 tt tt _ _ _ H).
  intros b Hb. injection Hb as <-. reflexivity.
Defined.

Lemma config_round_trip_witness :
  let w := Demo.start Demo.skeleton in
  let w1 := (save_configs (L := Yaml.libs) (Some "/tmp/root") "exp1"
               Yaml.nested "v1" w).1 in
  save_configs (L := Yaml.libs) (Some "/tmp/root") "exp1" Yaml.nested "v1" w
    = (w1, inr tt)
  /\ yaml_safe_load (Libs := Yaml.libs)
       (yaml_dump (Libs := Yaml.libs) false Yaml.nested) = Some Yaml.nested
  /\ exists w2,
       files w2 = files w1
       /\ load_configs (L := Yaml.libs) (Some "/tmp/root") "exp1" "v1" w1
          = (w2, inr Yaml.nested).
Proof.
  intros w w1.
  assert (H : save_configs (L := Yaml.libs) (Some "/tmp/root") "exp1"
                Yaml.nested "v1" w = (w1, inr tt))
    by (vm_compute; reflexivity).
  assert (Hrt : yaml_safe_load (Libs := Yaml.libs)
                  (yaml_dump (Libs := Yaml.libs) false Yaml.nested)
                = Some Yaml.nested) by (vm_compute; reflexivity).
  split; [exact H|]. split; [exact Hrt|].
  destruct (config_round_trip (L := Yaml.libs) (Some "/tmp/root") "exp1"
              "v1" Yaml.nested w w1 H) as (w2 & Hf & _ & Hl).
  exists w2. split; [exact Hf|exact (Hl Hrt)].
Defined.

Lemma save_data_unsupported_format_witness :
  Demo.nb_v1 !! "name" = Some "exp1"
  /\ exists w',
       save_data (L := Demo.libs) (Some "/tmp/root") Demo.nb_v1 [Byte.x01]
         "res" "json" 0 tt (Demo.start Demo.skeleton)
       = (w', inl (ValueError msg_unsupported))
       /\ forall q, file_at (files w') q = file_at Demo.skeleton q.
Proof.
  assert (Hn : Demo.nb_v1 !! "name" = Some "exp1") by (vm_compute; reflexivity).
  split; [exact Hn|].
  refine (save_data_unsupported_format (L := Demo.libs) "/tmp/root" "exp1"
            Demo.nb_v1 [Byte.x01] "res" "json" 0 tt
            (Demo.start Demo.skeleton) Hn _ _ _).
  - discriminate.
  - discriminate.
  - left. vm_compute. reflexivity.
Defined.

Lemma save_data_error_keeps_data_dir_witness :
  let w := Demo.start {[ ["tmp"] := Dir; Demo.root := Dir ]} in
  let w' := (save_data (L := Demo.libs) (Some "/tmp/root") Demo.nb_v1
               [Byte.x01] "res" "json" 0 tt w).1 in
  OS.exists_b (files w) (data_dir "/tmp/root" "exp1") = false
  /\ is_dir (files w') (Path.resolve (data_dir "/tmp/root" "exp1"))
  /\ OS.exists_b (files w') (data_dir "/tmp/root" "exp1") = true.
Proof.
  intros w w'.
  assert (Hn : Demo.nb_v1 !! "name" = Some "exp1") by (vm_compute; reflexivity).
  assert (He : OS.exists_b (files w) (data_dir "/tmp/root" "exp1") = false)
    by (vm_compute; reflexivity).
  assert (H : save_data (L := Demo.libs) (Some "/tmp/root") Demo.nb_v1
                [Byte.x01] "res" "json" 0 tt w
              = (w', inl (ValueError msg_unsupported)))
    by (vm_compute; reflexivity).
  split; [exact He|].
  destruct (save_data_error_keeps_data_dir (L := Demo.libs) "/tmp/root"
              "exp1" Demo.nb_v1 [Byte.x01] "res" "json" 0 tt w w'
              msg_unsupported Hn He H) as (Hd & Hx & _).
  split; [exact Hd|exact Hx].
Defined.

Lemma version_isolation_witness :
  let w := Demo.start Demo.two_versions in
  named_for "v2" Demo.data_v2 = true
  /\ file_at (files (save_data (L := Demo.libs) (Some "/tmp/root")
                       Demo.nb_v1 [Byte.x04] "a" "pkl" 0 tt w).1)
       Demo.data_v2 = file_at (files w) Demo.data_v2
  /\ file_at (files (save_figure (L := Demo.libs) (Some "/tmp/root")
                       Demo.nb_v1 [Byte.x05] "plot" "png" 0 tt w).1)
       Demo.data_v2 = file_at (files w) Demo.data_v2
  /\ file_at (files (clear_data_and_figure (L := Demo.libs)
                       (Some "/tmp/root") Demo.nb_v1 true true 0 w).1)
       Demo.data_v2 = file_at (files w) Demo.data_v2.
Proof.
  intros w. split; [reflexivity|].
  refine (version_isolation (L := Demo.libs) (Some "/tmp/root") Demo.nb_v1
            [Byte.x04] [Byte.x05] "a" "pkl" "plot" "png" 0 tt true true w
            Demo.data_v2 _ eq_refl eq_refl eq_refl wf_two_versions _ eq_refl).
  - vm_compute. reflexivity.
  - intros l n Hn. exact Hn.
Defined.

(** * Further properties of the module *)

(** ** Effects on the filesystem, operation by operation *)

Section Effects.

Context {L : Libs}.

Variable R : gmap Path.t node -> gmap Path.t node -> Prop.
Context {R_refl : Reflexive R} {R_trans : Transitive R}.

Lemma preserves_same {A} (m : M A) :
  (forall w, files (m w).1 = files w) -> preserves R m.
Proof. intros H w. by rewrite H. Qed.

Lemma preserves_ret {A} (a : A) : preserves R (ret a).
Proof. by apply preserves_same. Qed.

Lemma preserves_raise {A} e : preserves R (raise (A := A) e).
Proof. by apply preserves_same. Qed.

Lemma preserves_bind {A B} (m : M A) (k : A -> M B) :
  preserves R m -> (forall a, preserves R (k a)) -> preserves R (bind m k).
Proof.
  intros Hm Hk w. specialize (Hm w). unfold bind.
  destruct (m w) as [w1 [e|a]]; [done|].
  etrans; [exact Hm|apply Hk].
Qed.

Lemma preserves_when (c : bool) (m : M unit) :
  preserves R m -> preserves R (when c m).
Proof. destruct c; [done|]. intros _. apply preserves_ret. Qed.

Lemma preserves_for_each {A} (l : list A) (body : A -> M unit) :
  (forall a, preserves R (body a)) -> preserves R (for_each l body).
Proof.
  intros H. induction l as [|a l IH]; simpl; [apply preserves_ret|].
  by apply preserves_bind.
Qed.

Lemma preserves_log c : preserves R (log c).
Proof. by apply preserves_same. Qed.

Lemma preserves_print s : preserves R (print s).
Proof. by apply preserves_same. Qed.

Lemma preserves_getitem (nb : gmap string string) k :
  preserves R (getitem nb k).
Proof. apply preserves_same. intros w. unfold getitem. by destruct (nb !! k). Qed.

Lemma preserves_path_join root ps : preserves R (OS.path_join root ps).
Proof. apply preserves_same. intros w. by destruct root. Qed.

(** [x = d[k]; ...]: what follows runs with the value under [k]. *)
Lemma preserves_getitem_bind {A} (nb : gmap string string) k
    (f : string -> M A) :
  (forall x, nb !! k = Some x -> preserves R (f x)) ->
  preserves R (bind (getitem nb k) f).
Proof.
  intros H w. unfold bind, getitem. destruct (nb !! k) as [x|] eqn:Hk.
  - by apply H.
  - reflexivity.
Qed.

(** [p = os.path.join(new_path, ...); ...]: what follows runs with the
    joined path. *)
Lemma preserves_path_join_bind {A} root ps (f : string -> M A) :
  (forall r, root = Some r -> preserves R (f (Path.join r ps))) ->
  preserves R (bind (OS.path_join root ps) f).
Proof.
  intros H w. unfold bind. destruct root as [r|]; simpl.
  - by apply H.
  - reflexivity.
Qed.

Lemma preserves_path_exists p : preserves R (OS.path_exists p).
Proof. by apply preserves_same. Qed.

Lemma preserves_content p : preserves R (OS.content p).
Proof. by apply preserves_same. Qed.

Lemma preserves_read p : preserves R (OS.read p).
Proof.
  apply preserves_same. intros w. unfold OS.read, bind, log.
  cbn [files calls stdout]. by repeat case_match.
Qed.

Lemma preserves_listdir p : preserves R (OS.listdir listdir_order p).
Proof.
  apply preserves_same. intros w. unfold OS.listdir, bind, log.
  cbn [files calls stdout]. by repeat case_match.
Qed.

Lemma preserves_makedirs p :
  (forall fs fs', made_dirs fs fs' -> R fs fs') -> preserves R (OS.makedirs p).
Proof.
  intros H w. apply H. split.
  - intros q n. apply makedirs_mono.
  - intros q. apply makedirs_file_at.
Qed.

Lemma preserves_remove p :
  (forall fs fs', removed_at p fs fs' -> R fs fs') -> preserves R (OS.remove p).
Proof.
  intros H w. apply H. unfold removed_at, OS.remove, bind, log.
  cbn [files calls stdout set_files]. repeat case_match; eauto.
  right. split; [done|]. unfold node_at in *. case_match; naive_solver.
Qed.

(** [with open(p, "w") as f: ...] *)
Lemma preserves_open_write {A} p (k : Path.t -> M A) :
  writer k -> (forall fs fs', wrote_at p fs fs' -> R fs fs') ->
  preserves R (bind (OS.open_w p) k).
Proof.
  intros Hk H w. apply H. unfold bind.
  destruct (OS.open_w p w) as [w1 [e|f]] eqn:Ho.
  - apply open_w_inl in Ho as [_ Hf]. by left.
  - pose proof Ho as Ho'.
    apply open_w_inr in Ho as (-> & Hne & _ & _ & Hf).
    assert (Hnd : files w !! Path.resolve p <> Some Dir).
    { revert Ho'. unfold OS.open_w, bind, log. cbn [files calls stdout].
      destruct (Path.resolve p) as [|n q]; [done|]. cbn [node_at].
      intros Ho' Hd. rewrite Hd in Ho'. by case_match. }
    right. destruct (Hk (Path.resolve p) w1) as [->|[c ->]]; rewrite Hf.
    + by exists [].
    + exists c. by rewrite insert_insert_eq.
Qed.

Lemma writer_write_plain b : writer (fun f => OS.write f b).
Proof. intros f w. right. by exists b. Qed.

Lemma writer_write_or_raise (o : option bytes) e :
  writer (fun f => match o with
                   | Some b => OS.write f b
                   | None => raise e
                   end).
Proof. intros f w. destruct o as [b|]; [right; by exists b|by left]. Qed.

Lemma writer_write_then_raise b (c : bool) e :
  writer (fun f => run OS.write f b; when c (raise e)).
Proof. intros f w. right. exists b. by destruct c. Qed.

End Effects.

#[local] Instance unchanged_refl : Reflexive unchanged.
Proof. by intros fs. Qed.

#[local] Instance unchanged_trans : Transitive unchanged.
Proof. unfold unchanged. by intros a b c -> ->. Qed.

#[local] Instance shrinks_refl : Reflexive shrinks.
Proof. intros fs. unfold shrinks. reflexivity. Qed.

#[local] Instance shrinks_trans : Transitive shrinks.
Proof. unfold shrinks. intros a b c H1 H2. by etrans. Qed.

#[local] Instance keeps_entries_refl : Reflexive keeps_entries.
Proof. by intros fs q. Qed.

#[local] Instance keeps_entries_trans : Transitive keeps_entries.
Proof.
  intros a b c H1 H2 q. destruct (H1 q), (H2 q). split; auto.
Qed.

#[local] Instance touches_refl S : Reflexive (touches S).
Proof. by intros fs q _. Qed.

#[local] Instance touches_trans S : Transitive (touches S).
Proof. intros a b c H1 H2 q Hq. by rewrite H2, H1. Qed.

Lemma touches_made_dirs S fs fs' : made_dirs fs fs' -> touches S fs fs'.
Proof. intros [_ H] q _. apply H. Qed.

Lemma touches_wrote_at (S : Path.t -> Prop) p fs fs' :
  S (Path.resolve p) -> wrote_at p fs fs' -> touches S fs fs'.
Proof.
  intros Hp [->|(c & -> & _)] q Hq; [done|].
  apply file_at_insert_ne. by intros <-.
Qed.

Lemma touches_removed_at (S : Path.t -> Prop) p fs fs' :
  S (Path.resolve p) -> removed_at p fs fs' -> touches S fs fs'.
Proof.
  intros Hp [->|(-> & _)] q Hq; [done|].
  apply file_at_delete_ne. by intros <-.
Qed.



Lemma shrinks_removed_at p fs fs' : removed_at p fs fs' -> shrinks fs fs'.
Proof. intros [->|(-> & _)]; [done|]. apply delete_subseteq. Qed.

(** The rules that need no side condition, applied along the structure
    of an operation. *)
Ltac effects :=
  repeat first
    [ apply preserves_ret | apply preserves_raise | apply preserves_log
    | apply preserves_print | apply preserves_getitem
    | apply preserves_path_join | apply preserves_path_exists
    | apply preserves_content
    | apply preserves_read | apply preserves_listdir
    | apply preserves_when | apply preserves_makedirs
    | apply preserves_remove
    | apply preserves_for_each; [..|intros ?]
    | apply preserves_open_write;
        [..|first [apply writer_write_plain | apply writer_write_or_raise
                  |apply writer_write_then_raise]|]
    | apply preserves_getitem_bind; [..|intros ? ?]
    | apply preserves_path_join_bind; [..|intros ? ?]
    | apply preserves_bind; [..|intros ?]
    | match goal with
      | |- Reflexive _ => apply _
      | |- Transitive _ => apply _
      | |- preserves _ (match ?x with _ => _ end) => destruct x
      | |- preserves _ (if ?x then _ else _) => destruct x
      end
    | progress cbv zeta ].

(** ** Loading *)

Section Loading.

Context {L : Libs}.

(** X1: [load_configs] leaves the filesystem as it was, whatever it is
    given and whether it returns or raises, and the one system call it
    makes is the opening of the configuration file for reading:
    [yaml.safe_load] builds plain values from the bytes and runs nothing
    of theirs. *)
Theorem load_configs_read_only (root : option string)
    (folder suffix : string) (w : world) :
  files (load_configs root folder suffix w).1 = files w
  /\ calls (load_configs root folder suffix w).1
     = calls w ++ match root with
                  | Some r => [OpenR (Path.join r [folder; config_file suffix])]
                  | None => []
                  end.
Proof.
  split.
  - assert (H : preserves unchanged (load_configs root folder suffix))
      by (unfold load_configs; effects).
    apply H.
  - destruct root as [r|]; [|by rewrite app_nil_r].
    unfold load_configs. cbn [OS.path_join].
    rewrite (bind_step _ _ w w _ eq_refl).
    unfold bind at 1, OS.read, bind, log. cbn [files calls stdout].
    by repeat case_match; simplify_eq/=.
Qed.

End Loading.

(** ** What the operations never do *)

Section NeverDo.

Context {L : Libs}.


(** X3: pruning never creates or changes anything: every entry of the
    filesystem after the call was there before, with the same content,
    whether the call returns or raises. *)
Theorem pruning_only_removes (root : option string)
    (nb : gmap string string) (d f : bool) (verbose : Z) (w : world) :
  files (clear_data_and_figure root nb d f verbose w).1 ⊆ files w.
Proof.
  assert (H : preserves shrinks (clear_data_and_figure root nb d f verbose)).
  { unfold clear_data_and_figure, clear_dir. effects.
    all: intros ? ?; apply shrinks_removed_at. }
  apply H.
Qed.

End NeverDo.

(** ** Saving writes one file *)

Section OneFile.

Context {L : Libs}.

Ltac one_file Hn :=
  effects;
  first
    [ apply touches_made_dirs
    | intros ? ?; apply touches_wrote_at;
      repeat match goal with
             | H : _ !! "name" = Some _ |- _ =>
                 rewrite Hn in H; injection H as <-
             | H : Some _ = Some _ |- _ => injection H as <-
             end;
      reflexivity ].

(** X4: a save whose target path holds no dot names changes no regular
    file other than its target: the configuration file for
    [save_configs], the figure file for [save_figure], the data artifact
    for [save_data], whether the call returns or raises. *)
Theorem saves_write_one_file (r folder suffix : string)
    (config : doc scalar) (nb : gmap string string) (fig : figure)
    (x : obj) (name format : string) (verbose : Z) (kw : kwargs)
    (w : world) (q : Path.t) :
  nb !! "name" = Some folder ->
  (Path.plain (Path.join r [folder; config_file suffix]) = true ->
   q <> Path.resolve (Path.join r [folder; config_file suffix]) ->
   file_at (files (save_configs (Some r) folder config suffix w).1) q
   = file_at (files w) q)
  /\ (Path.plain
        (artifact_path (Path.join r [folder; "figures"]) nb name format)
      = true ->
      q <> Path.resolve
             (artifact_path (Path.join r [folder; "figures"]) nb name format) ->
      file_at (files (save_figure (Some r) nb fig name format verbose kw w).1) q
      = file_at (files w) q)
  /\ (Path.plain (artifact_path (data_dir r folder) nb name format) = true ->
      q <> Path.resolve (artifact_path (data_dir r folder) nb name format) ->
      file_at (files (save_data (Some r) nb x name format verbose kw w).1) q
      = file_at (files w) q).
Proof.
  intros Hn.
  assert (H1 : preserves
                 (touches (fun q' => q' = Path.resolve
                             (Path.join r [folder; config_file suffix])))
                 (save_configs (Some r) folder config suffix)).
  { unfold save_configs. one_file Hn. }
  assert (H2 : preserves
                 (touches (fun q' => q' = Path.resolve
                             (artifact_path (Path.join r [folder; "figures"])
                                nb name format)))
                 (save_figure (Some r) nb fig name format verbose kw)).
  { unfold save_figure. one_file Hn. }
  assert (H3 : preserves
                 (touches (fun q' => q' = Path.resolve
                             (artifact_path (data_dir r folder) nb name
                                format)))
                 (save_data (Some r) nb x name format verbose kw)).
  { unfold save_data. one_file Hn. }
  repeat split; intros _ Hq; [by apply H1|by apply H2|by apply H3].
Qed.

End OneFile.

(** ** Output *)

Section Quiet.

Context {L : Libs}.

Lemma quiet_same {A} (m : M A) :
  (forall w, stdout (m w).1 = stdout w) -> quiet m.
Proof. done. Qed.

Lemma quiet_ret {A} (a : A) : quiet (ret a).
Proof. done. Qed.

Lemma quiet_raise {A} e : quiet (raise (A := A) e).
Proof. done. Qed.

Lemma quiet_bind {A B} (m : M A) (k : A -> M B) :
  quiet m -> (forall a, quiet (k a)) -> quiet (bind m k).
Proof.
  intros Hm Hk w. specialize (Hm w). unfold bind.
  destruct (m w) as [w1 [e|a]]; [done|]. by rewrite Hk.
Qed.

Lemma quiet_when (c : bool) (m : M unit) : quiet m -> quiet (when c m).
Proof. by destruct c. Qed.

Lemma quiet_for_each {A} (l : list A) (body : A -> M unit) :
  (forall a, quiet (body a)) -> quiet (for_each l body).
Proof.
  intros H. induction l as [|a l IH]; simpl; [done|]. by apply quiet_bind.
Qed.

Lemma quiet_log c : quiet (log c).
Proof. done. Qed.

Lemma quiet_getitem (nb : gmap string string) k : quiet (getitem nb k).
Proof. intros w. unfold getitem. by destruct (nb !! k). Qed.

Lemma quiet_path_join root ps : quiet (OS.path_join root ps).
Proof. intros w. by destruct root. Qed.

Lemma quiet_path_exists p : quiet (OS.path_exists p).
Proof. done. Qed.

Lemma quiet_makedirs p : quiet (OS.makedirs p).
Proof.
  intros w. unfold OS.makedirs, bind, log. cbn [files calls stdout].
  by repeat case_match.
Qed.

Lemma quiet_open_w p : quiet (OS.open_w p).
Proof.
  intros w. unfold OS.open_w, bind, log. cbn [files calls stdout].
  by repeat case_match.
Qed.

Lemma quiet_write f b : quiet (OS.write f b).
Proof. done. Qed.

Lemma quiet_content p : quiet (OS.content p).
Proof. done. Qed.

Lemma quiet_read p : quiet (OS.read p).
Proof.
  intros w. unfold OS.read, bind, log. cbn [files calls stdout].
  by repeat case_match.
Qed.

Lemma quiet_listdir p : quiet (OS.listdir listdir_order p).
Proof.
  intros w. unfold OS.listdir, bind, log. cbn [files calls stdout].
  by repeat case_match.
Qed.

Lemma quiet_remove p : quiet (OS.remove p).
Proof.
  intros w. unfold OS.remove, bind, log. cbn [files calls stdout].
  by repeat case_match.
Qed.

Ltac quietly :=
  repeat first
    [ apply quiet_ret | apply quiet_raise | apply quiet_log
    | apply quiet_getitem | apply quiet_path_join | apply quiet_path_exists
    | apply quiet_makedirs | apply quiet_open_w | apply quiet_write
    | apply quiet_content
    | apply quiet_read | apply quiet_listdir | apply quiet_remove
    | apply quiet_when | apply quiet_for_each; intros ?
    | apply quiet_bind; [|intros ?]
    | match goal with
      | |- quiet (match ?x with _ => _ end) => destruct x
      | |- quiet (if ?x then _ else _) => destruct x
      end
    | progress cbv zeta ].

(** X5: with [verbose <= 0] the operations print nothing, whether they
    return or raise; [load_configs] and [save_configs] never print. *)
Theorem silent_unless_verbose (root : option string)
    (folder suffix : string) (config : doc scalar)
    (nb : gmap string string) (fig : figure) (x : obj)
    (name format : string) (verbose : Z) (kw : kwargs) (d f : bool)
    (w : world) :
  verbose <= 0 ->
  stdout (initialise_config root folder verbose w).1 = stdout w
  /\ stdout (save_figure root nb fig name format verbose kw w).1 = stdout w
  /\ stdout (save_data root nb x name format verbose kw w).1 = stdout w
  /\ stdout (clear_data_and_figure root nb d f verbose w).1 = stdout w
  /\ stdout (load_data root nb name format verbose kw w).1 = stdout w
  /\ stdout (load_configs root folder suffix w).1 = stdout w
  /\ stdout (save_configs root folder config suffix w).1 = stdout w.
Proof.
  intros Hv. apply Z.ltb_ge in Hv.
  assert (H1 : quiet (initialise_config root folder verbose))
    by (unfold initialise_config; rewrite Hv; quietly).
  assert (H2 : quiet (save_figure root nb fig name format verbose kw))
    by (unfold save_figure; rewrite Hv; quietly).
  assert (H3 : quiet (save_data root nb x name format verbose kw))
    by (unfold save_data; rewrite Hv; quietly).
  assert (H4 : quiet (clear_data_and_figure root nb d f verbose))
    by (unfold clear_data_and_figure, clear_dir; rewrite Hv; quietly).
  assert (H5 : quiet (load_data root nb name format verbose kw))
    by (unfold load_data; rewrite Hv; quietly).
  assert (H6 : quiet (load_configs root folder suffix))
    by (unfold load_configs; quietly).
  assert (H7 : quiet (save_configs root folder config suffix))
    by (unfold save_configs; quietly).
  repeat split; auto.
Qed.

End Quiet.

(** ** What initialisation creates *)

Section Skeleton.

Context {L : Libs}.



Lemma resolve_join_name d n :
  Path.valid_name n = true ->
  Path.resolve (Path.join d [n]) = Path.resolve d ++ [n].
Proof. apply resolve_join2. Qed.







(** What a call of [initialise_config] that returned has run, when the
    folder was missing. *)
Lemma initialise_config_fresh_inv r folder verbose w w1 :
  OS.exists_b (files w) (Path.join r [folder]) = false ->
  initialise_config (Some r) folder verbose w = (w1, inr tt) ->
  exists wa wb wc,
    OS.makedirs (Path.join r [folder])
      (World (files w) (calls w ++ [Stat (Path.join r [folder])]) (stdout w))
    = (wa, inr tt)
    /\ OS.makedirs (Path.join (Path.join r [folder]) ["data"]) wa
       = (wb, inr tt)
    /\ OS.makedirs (Path.join (Path.join r [folder]) ["figures"]) wb
       = (wc, inr tt)
    /\ files w1 = files wc.
Proof.
  intros He H. unfold initialise_config in H. cbn [OS.path_join] in H.
  rewrite (bind_step _ _ w w _ eq_refl) in H.
  rewrite (bind_step _ _ _ _ _ (path_exists_eq _ w)), He in H.
  cbn [negb] in H.
  apply bind_inr in H as (wa & [] & Ha & H).
  apply bind_inr in H as (wb & [] & Hb & H).
  apply bind_inr in H as (wc & [] & Hc & H).
  finish_print H w' Hf. by exists wa, wb, wc.
Qed.

(** X6: a call of [initialise_config] that returns, for a folder that did
    not exist, leaves the folder, its [data] and its [figures] as
    directories, keeps every entry there was, and creates or changes no
    regular file. *)
Theorem initialise_config_creates_skeleton (r folder : string)
    (verbose : Z) (w w1 : world) :
  let folder_path := Path.join r [folder] in
  OS.exists_b (files w) folder_path = false ->
  initialise_config (Some r) folder verbose w = (w1, inr tt) ->
  is_dir (files w1) (Path.resolve folder_path)
  /\ is_dir (files w1) (Path.resolve folder_path ++ ["data"])
  /\ is_dir (files w1) (Path.resolve folder_path ++ ["figures"])
  /\ (forall q n, files w !! q = Some n -> files w1 !! q = Some n)
  /\ forall q, file_at (files w1) q = file_at (files w) q.
Proof.
  intros fp He H.
  destruct (initialise_config_fresh_inv _ _ _ _ _ He H)
    as (wa & wb & wc & Ha & Hb & Hc & Hf).
  fold fp in Ha, Hb, Hc.
  assert (Hwa : wa = (OS.makedirs fp
            (World (files w) (calls w ++ [Stat fp]) (stdout w))).1)
    by (by rewrite Ha).
  assert (Hwb : wb = (OS.makedirs (Path.join fp ["data"]) wa).1)
    by (by rewrite Hb).
  assert (Hwc : wc = (OS.makedirs (Path.join fp ["figures"]) wb).1)
    by (by rewrite Hc).
  assert (Hmono : forall q n, files w !! q = Some n -> files wc !! q = Some n).
  { intros q n Hq. rewrite Hwc. apply makedirs_mono.
    rewrite Hwb. apply makedirs_mono. rewrite Hwa. by apply makedirs_mono. }
  apply makedirs_inr in Ha as [_ Ha].
  apply makedirs_inr in Hb as [_ Hb].
  apply makedirs_inr in Hc as [_ Hc].
  rewrite resolve_join_name in Hb, Hc by done.
  rewrite Hf. repeat split; [| |done|done|].
  - eapply node_at_mono; [|exact Ha]. intros q' n Hq.
    rewrite Hwc. apply makedirs_mono. rewrite Hwb. by apply makedirs_mono.
  - eapply node_at_mono; [|exact Hb]. intros q' n Hq.
    rewrite Hwc. by apply makedirs_mono.
  - intros q. rewrite Hwc, makedirs_file_at, Hwb, makedirs_file_at, Hwa.
    by rewrite makedirs_file_at.
Qed.



Lemma config_file_valid suffix :
  Str.has_slash suffix = false -> Path.valid_name (config_file suffix) = true.
Proof.
  intros Hs. unfold Path.valid_name, config_file.
  by rewrite !has_slash_app, Hs.
Qed.


End Skeleton.

(** ** Saving and loading data *)

Section DataArtifacts.

Context {L : Libs}.




(** What a [save_data] that returned has done: the root and the name
    were there, the format was one of the two, and the artifact holds
    what the serializer produced, for [to_csv] from what the artifact held
    before. *)
Lemma save_data_inr root (nb : gmap string string) x name format verbose
    kw w w1 :
  save_data root nb x name format verbose kw w = (w1, inr tt) ->
  exists r folder b,
    root = Some r /\ nb !! "name" = Some folder
    /\ ((format = "pkl" /\ pickle_dump kw x = Some b)
        \/ (format = "csv" /\ has_to_csv x = true
            /\ to_csv kw x
                 (file_at (files w)
                    (Path.resolve
                       (artifact_path (data_dir r folder) nb name format)))
               = Some (b, true)))
    /\ files w1
         !! Path.resolve (artifact_path (data_dir r folder) nb name format)
       = Some (File b)
    /\ Path.resolve (artifact_path (data_dir r folder) nb name format) <> []
    /\ Str.is_empty (artifact_path (data_dir r folder) nb name format)
       = false
    /\ Str.endswith_slash (artifact_path (data_dir r folder) nb name format)
       = false.
Proof.
  intros H. unfold save_data in H.
  apply bind_inr in H as (w0 & folder & Hg & H).
  apply getitem_inr in Hg as [Hn ->].
  apply bind_inr in H as (w0 & dp & Hj & H).
  apply path_join_inr in Hj as (r & -> & -> & ->).
  rewrite (bind_step _ _ _ _ _ (path_exists_eq _ w)) in H.
  apply bind_inr in H as (wa & [] & Hm & H).
  apply bind_inr in H as (wb & [] & Hb & H).
  finish_print H w' Hf. exists r, folder.
  fold (data_dir r folder) in Hb, Hm.
  fold (artifact_path (data_dir r folder) nb name format) in Hb.
  assert (Hold : forall q, file_at (files wa) q = file_at (files w) q).
  { intros q.
    match type of Hm with
    | ?t = _ => assert (Hwa : wa = t.1) by (by rewrite Hm)
    end.
    rewrite Hwa. destruct (negb _); cbn [when]; [|done].
    by rewrite makedirs_file_at. }
  destruct (String.eqb_spec format "pkl") as [->|_].
  { apply bind_inr in Hb as (wo & f & Ho & Hb).
    apply open_w_inr in Ho as (-> & Hne & Hemp & Hsl & Hfo).
    destruct (pickle_dump kw x) as [b|] eqn:Hp; [|discriminate].
    rewrite write_eq in Hb. injection Hb as <-. exists b.
    rewrite Hf. cbn [files set_files]. rewrite lookup_insert_eq. eauto 10. }
  destruct (String.eqb_spec format "csv") as [->|_]; [|discriminate].
  destruct (has_to_csv x) eqn:Hc; [|discriminate].
  apply bind_inr in Hb as (wc & old & Ho & Hb).
  unfold OS.content in Ho. injection Ho as <- <-.
  destruct (to_csv kw x _) as [[b returned]|] eqn:Hp; [|discriminate].
  apply bind_inr in Hb as (wo & f & Ho & Hb).
  apply open_w_inr in Ho as (-> & Hne & Hemp & Hsl & Hfo).
  apply bind_inr in Hb as (wd & [] & Hwr & Hb).
  rewrite write_eq in Hwr. injection Hwr as <-.
  destruct returned; [|discriminate]. injection Hb as <-.
  exists b. rewrite Hold in Hp.
  rewrite Hf. cbn [files set_files]. rewrite lookup_insert_eq. eauto 10.
Qed.

(** [load_data] up to the format dispatch, on an artifact that exists. *)
Lemma load_data_existing r folder (nb : gmap string string) name format
    verbose kw w b :
  let path := artifact_path (data_dir r folder) nb name format in
  nb !! "name" = Some folder ->
  files w !! Path.resolve path = Some (File b) ->
  Path.resolve path <> [] ->
  Str.is_empty path = false -> Str.endswith_slash path = false ->
  exists w2,
    files w2 = files w
    /\ load_data (Some r) nb name format verbose kw w
       = (w2,
          if String.eqb format "pkl" then
            match pickle_load kw b with
            | Some y => inr y
            | None => inl (LibraryError "pickle")
            end
          else if String.eqb format "csv" then
            match read_csv kw b with
            | Some y => inr y
            | None => inl (LibraryError "pandas")
            end
          else inl (ValueError msg_unsupported)).
Proof.
  intros path Hn Hfile Hne Hemp Hsl. unfold load_data.
  rewrite (bind_step _ _ _ _ _ (getitem_present _ _ _ w Hn)).
  cbn [OS.path_join]. rewrite (bind_step _ _ w w _ eq_refl).
  fold (data_dir r folder).
  fold (artifact_path (data_dir r folder) nb name format). fold path.
  rewrite (bind_step _ _ _ _ _ (path_exists_eq _ w)).
  rewrite (exists_file path b (files w) Hemp Hsl Hne Hfile).
  cbn [negb when]. rewrite (bind_step _ _ _ _ tt eq_refl).
  set (wr := World (files w) (calls w ++ [Stat path]) (stdout w)).
  assert (Hread : OS.read path wr
    = (World (files wr) (calls wr ++ [OpenR path]) (stdout wr), inr b))
    by (by apply read_file).
  set (wr' := World (files wr) (calls wr ++ [OpenR path]) (stdout wr)) in *.
  destruct (when_print_inr (0 <? verbose) ("Data loaded from " +:+ path) wr')
    as (w2 & Hw2 & Hf2).
  destruct (String.eqb format "pkl").
  { unfold bind at 1. unfold bind at 1. rewrite Hread.
    destruct (pickle_load kw b) as [y|].
    - exists w2. split; [by rewrite Hf2|].
      unfold ret at 1. by rewrite (bind_step _ _ _ _ _ Hw2).
    - by exists wr'. }
  destruct (String.eqb format "csv").
  { unfold bind at 1. unfold bind at 1. rewrite Hread.
    destruct (read_csv kw b) as [y|].
    - exists w2. split; [by rewrite Hf2|].
      unfold ret at 1. by rewrite (bind_step _ _ _ _ _ Hw2).
    - by exists wr'. }
  by exists wr.
Qed.

End DataArtifacts.

Section DataProperties.

Context {L : Libs}.

(** X8: after a [save_data] in the format ["csv"] that returned, the
    artifact holds what [to_csv] left there, given what the artifact held
    before the call (in append mode the earlier rows are still in it), and
    [load_data] in the same format gives what [pandas.read_csv] makes of
    that content. *)
Theorem csv_load_after_save (r folder : string)
    (nb : gmap string string) (x : obj) (name : string)
    (verbose verbose' : Z) (kw kw' : kwargs) (w w1 : world) :
  let path := artifact_path (data_dir r folder) nb name "csv" in
  nb !! "name" = Some folder ->
  save_data (Some r) nb x name "csv" verbose kw w = (w1, inr tt) ->
  exists b,
    to_csv kw x (file_at (files w) (Path.resolve path)) = Some (b, true)
    /\ file_at (files w1) (Path.resolve path) = Some b
    /\ exists w2,
         files w2 = files w1
         /\ load_data (Some r) nb name "csv" verbose' kw' w1
            = (w2, match read_csv kw' b with
                   | Some y => inr y
                   | None => inl (LibraryError "pandas")
                   end).
Proof.
  intros path Hn H.
  apply save_data_inr in H
    as (r' & folder' & b & Hr & Hn' & Hfmt & Hfile & Hne & Hemp & Hsl).
  injection Hr as <-. rewrite Hn in Hn'. injection Hn' as <-.
  destruct Hfmt as [[? _]|(_ & _ & Hb)]; [discriminate|].
  fold path in Hb, Hfile, Hne, Hemp, Hsl.
  exists b. split; [exact Hb|]. split; [unfold file_at; by rewrite Hfile|].
  exact (load_data_existing r folder nb name "csv" verbose' kw' w1 b
           Hn Hfile Hne Hemp Hsl).
Qed.

(** X9: an artifact pickled under one notebook config is loaded under
    any other with the same name and the same version once the default
    ["v1"] is applied: saving without a version and loading with
    [version = "v1"] meet. *)
Theorem pickle_round_trip_across_configs (root : option string)
    (nb nb' : gmap string string) (x : obj) (name : string)
    (verbose verbose' : Z) (kw kw' : kwargs) (w w1 : world) :
  nb' !! "name" = nb !! "name" ->
  get nb' "version" "v1" = get nb "version" "v1" ->
  (forall b, pickle_dump kw x = Some b -> pickle_load kw' b = Some x) ->
  save_data root nb x name "pkl" verbose kw w = (w1, inr tt) ->
  exists w2,
    load_data root nb' name "pkl" verbose' kw' w1 = (w2, inr x)
    /\ files w2 = files w1.
Proof.
  intros Hname Hver Hrt H.
  apply save_data_inr in H
    as (r & folder & b & -> & Hn & Hfmt & Hfile & Hne & Hemp & Hsl).
  destruct Hfmt as [[_ Hb]|[? _]]; [|discriminate].
  assert (Hp : artifact_path (data_dir r folder) nb' name "pkl"
               = artifact_path (data_dir r folder) nb name "pkl")
    by (unfold artifact_path; by rewrite Hver).
  rewrite <- Hp in Hfile, Hne, Hemp, Hsl. rewrite <- Hname in Hn.
  destruct (load_data_existing r folder nb' name "pkl" verbose' kw' w1 b
              Hn Hfile Hne Hemp Hsl) as (w2 & Hf & Hl).
  exists w2. split; [|done]. rewrite Hl.
  change (String.eqb "pkl" "pkl") with true. cbn iota.
  by rewrite (Hrt b Hb).
Qed.

(** X10: [save_data] in the format ["csv"] of an object without a
    [to_csv] method, on a notebook config with a name and a data directory
    that exists or can be created, raises the [ValueError] that says so,
    and no regular file is created or changed. *)
Theorem save_data_csv_without_to_csv (root folder : string)
    (nb : gmap string string) (x : obj) (name : string) (verbose : Z)
    (kw : kwargs) (w : world) :
  nb !! "name" = Some folder ->
  has_to_csv x = false ->
  OS.exists_b (files w) (data_dir root folder) = true
    \/ (OS.makedirs (data_dir root folder) w).2 = inr tt ->
  exists w',
    save_data (Some root) nb x name "csv" verbose kw w
    = (w', inl (ValueError msg_no_to_csv))
    /\ forall q, file_at (files w') q = file_at (files w) q.
Proof.
  intros Hn Hc Hdir. unfold save_data.
  rewrite (bind_step _ _ _ _ _ (getitem_present _ _ _ w Hn)).
  cbn [OS.path_join]. rewrite (bind_step _ _ w w _ eq_refl).
  fold (data_dir root folder).
  rewrite (bind_step _ _ _ _ _ (path_exists_eq _ w)).
  change (String.eqb "csv" "pkl") with false.
  change (String.eqb "csv" "csv") with true. cbn iota. rewrite Hc.
  set (w0 := World (files w) (calls w ++ [Stat (data_dir root folder)])
               (stdout w)).
  destruct (OS.exists_b (files w) (data_dir root folder)) eqn:He;
    cbn [negb when].
  - exists w0. split; [reflexivity|done].
  - destruct Hdir as [|Hm]; [discriminate|].
    rewrite <- (makedirs_result _ w w0 eq_refl) in Hm.
    pose proof (makedirs_file_at (data_dir root folder) w0) as Hf.
    destruct (OS.makedirs (data_dir root folder) w0) as [wa [e|[]]] eqn:Ha;
      [discriminate|].
    exists wa. split; [by rewrite (bind_step _ _ _ _ _ Ha)|exact Hf].
Qed.

(** X11: [load_data] with a format other than ["pkl"] and ["csv"], when
    something exists at the resolved path, raises the [ValueError] of an
    unsupported format after the existence test alone: the file is not
    opened. *)
Theorem load_data_unsupported_format (root folder : string)
    (nb : gmap string string) (name format : string) (verbose : Z)
    (kw : kwargs) (w : world) :
  let path := artifact_path (data_dir root folder) nb name format in
  nb !! "name" = Some folder ->
  format <> "pkl" -> format <> "csv" ->
  OS.exists_b (files w) path = true ->
  load_data (Some root) nb name format verbose kw w
  = (World (files w) (calls w ++ [Stat path]) (stdout w),
     inl (ValueError msg_unsupported)).
Proof.
  intros path Hn Hp Hc He. unfold load_data.
  rewrite (bind_step _ _ _ _ _ (getitem_present _ _ _ w Hn)).
  cbn [OS.path_join]. rewrite (bind_step _ _ w w _ eq_refl).
  fold (data_dir root folder).
  fold (artifact_path (data_dir root folder) nb name format). fold path.
  rewrite (bind_step _ _ _ _ _ (path_exists_eq _ w)), He.
  cbn [negb when]. rewrite (bind_step _ _ _ _ tt eq_refl).
  by rewrite (eqb_false_of_ne _ _ Hp), (eqb_false_of_ne _ _ Hc).
Qed.


End DataProperties.

(** ** Pruning *)

Section Pruning.

Context {L : Libs}.

Implicit Types (fs : gmap (list string) node) (q : list string).

Lemma wf_fs_subseteq fs fs' : wf_fs fs -> fs' ⊆ fs -> wf_fs fs'.
Proof.
  intros Hwf Hsub q n Hq. apply (Hwf q n). by eapply lookup_weaken.
Qed.

Lemma exists_b_subseteq fs fs' p :
  fs' ⊆ fs -> OS.exists_b fs' p = true -> OS.exists_b fs p = true.
Proof.
  intros Hsub. unfold OS.exists_b. destruct (Str.is_empty p); [done|].
  unfold node_at. destruct (Path.resolve p) as [|a q]; [done|].
  destruct (fs' !! (a :: q)) as [n|] eqn:Hq; [|done].
  by rewrite (lookup_weaken _ _ _ _ Hq Hsub).
Qed.

Lemma children_complete fs q (n : string) :
  is_Some (fs !! (q ++ [n])) -> n ∈ OS.children fs q.
Proof.
  intros [x Hx]. unfold OS.children. apply list_elem_of_omap.
  exists (q ++ [n]). split.
  - apply list_elem_of_fmap. exists (q ++ [n], x). split; [done|].
    by apply elem_of_map_to_list.
  - unfold OS.child_name. rewrite take_app_length, drop_app_length.
    by case_decide.
Qed.

Lemma remove_inr p w w' :
  OS.remove p w = (w', inr tt) ->
  files w' = delete (Path.resolve p) (files w).
Proof.
  unfold OS.remove, bind, log. cbn [files calls stdout set_files].
  intros H. repeat (case_match; try discriminate). by injection H as <-.
Qed.

Lemma listdir_inr p w w' (l : list string) :
  OS.listdir listdir_order p w = (w', inr l) ->
  files w' = files w
  /\ l = listdir_order (OS.children (files w) (Path.resolve p)).
Proof.
  unfold OS.listdir, bind, log. cbn [files calls stdout].
  intros H. repeat (case_match; try discriminate). by injection H as <- <-.
Qed.

(** The loop of a pruning that ran to its end: the entries it met and
    that are named for the version are gone. *)
Lemma clear_loop_inr dir v (l : list string) w w' :
  (forall n, n ∈ l -> Path.valid_name n = true) ->
  for_each l (fun file =>
    when (Str.startswith file (v +:+ "_"))
      (OS.remove (Path.join dir [file]))) w = (w', inr tt) ->
  files w' ⊆ files w
  /\ forall n, n ∈ l -> Str.startswith n (v +:+ "_") = true ->
               files w' !! (Path.resolve dir ++ [n]) = None.
Proof.
  revert w. induction l as [|a l IH]; intros w Hv H.
  - injection H as <-. split; [done|]. intros n Hn. by inversion Hn.
  - cbn [for_each] in H. apply bind_inr in H as (w1 & [] & Ha & H).
    destruct (IH w1) as [Hsub Hgone]; [intros n Hn; apply Hv; by right|done|].
    assert (Hw1 : files w1 ⊆ files w
                  /\ (Str.startswith a (v +:+ "_") = true ->
                      files w1 !! (Path.resolve dir ++ [a]) = None)).
    { destruct (Str.startswith a (v +:+ "_")); cbn [when] in Ha.
      - apply remove_inr in Ha. rewrite Ha.
        split; [apply delete_subseteq|]. intros _.
        rewrite (resolve_join_name dir a) by (apply Hv; by left).
        apply lookup_delete_eq.
      - injection Ha as <-. by split. }
    destruct Hw1 as [Hsub1 Hgone1]. split; [by etrans|].
    intros n Hn Hs. apply elem_of_cons in Hn as [->|Hn]; [|by apply Hgone].
    eapply lookup_weaken_None; [by apply Hgone1|done].
Qed.

Section WithListing.

(** [os.listdir] reports the entries of the directory, all of them. *)
Hypothesis listdir_order_exact :
  forall l n, n ∈ listdir_order l <-> n ∈ l.

Lemma clear_dir_inr dir v w w' :
  wf_fs (files w) ->
  clear_dir dir v w = (w', inr tt) ->
  files w' ⊆ files w
  /\ forall n, Str.startswith n (v +:+ "_") = true ->
               files w' !! (Path.resolve dir ++ [n]) = None.
Proof.
  intros Hwf H. unfold clear_dir in H.
  apply bind_inr in H as (w0 & l & Hl & H).
  apply listdir_inr in Hl as [Hf0 ->].
  apply clear_loop_inr in H as [Hsub Hgone].
  - rewrite Hf0 in Hsub. split; [done|]. intros n Hs.
    destruct (files w !! (Path.resolve dir ++ [n])) as [x|] eqn:Hn.
    + apply Hgone; [|done]. apply (proj2 (listdir_order_exact _ _)).
      apply children_complete. by rewrite Hn.
    + by eapply lookup_weaken_None.
  - intros n Hn. apply (proj1 (listdir_order_exact _ _)) in Hn.
    by eapply children_valid.
Qed.

(** What a pruning that returned leaves. *)
Lemma clear_inr r folder (nb : gmap string string) (d f : bool) verbose
    w w' :
  let v := get nb "version" "v1" in
  wf_fs (files w) ->
  nb !! "name" = Some folder ->
  d || f = true ->
  clear_data_and_figure (Some r) nb d f verbose w = (w', inr tt) ->
  files w' ⊆ files w
  /\ (OS.exists_b (files w) (data_dir r folder) = true ->
      forall n, Str.startswith n (v +:+ "_") = true ->
        files w' !! (Path.resolve (data_dir r folder) ++ [n]) = None)
  /\ (OS.exists_b (files w') (Path.join r [folder; "figures"]) = true ->
      forall n, Str.startswith n (v +:+ "_") = true ->
        files w'
          !! (Path.resolve (Path.join r [folder; "figures"]) ++ [n]) = None).
Proof.
  intros v Hwf Hn Hdf H. unfold clear_data_and_figure in H.
  assert (Hflags : negb d && negb f = false) by (by destruct d, f).
  rewrite Hflags in H.
  rewrite (bind_step _ _ _ _ _ (getitem_present _ _ _ w Hn)) in H.
  cbn [OS.path_join] in H. rewrite (bind_step _ _ w w _ eq_refl) in H.
  fold (data_dir r folder) in H. fold v in H.
  rewrite (bind_step _ _ _ _ _ (path_exists_eq _ w)) in H.
  apply bind_inr in H as (w2 & [] & Hdata & H).
  rewrite (bind_step _ _ w2 w2 _ eq_refl) in H.
  rewrite (bind_step _ _ _ _ _ (path_exists_eq _ w2)) in H.
  set (fdir := Path.join r [folder; "figures"]) in *.
  assert (Hd : files w2 ⊆ files w
               /\ (OS.exists_b (files w) (data_dir r folder) = true ->
                   forall n, Str.startswith n (v +:+ "_") = true ->
                     files w2 !! (Path.resolve (data_dir r folder) ++ [n])
                     = None)).
  { destruct (OS.exists_b (files w) (data_dir r folder)); cbn [when] in Hdata.
    - apply bind_inr in Hdata as (wa & [] & Hc & Hp).
      finish_print Hp wp Hfp. rewrite Hfp.
      apply clear_dir_inr in Hc as [Hsub Hgone]; [|done]. by split.
    - injection Hdata as <-. by split. }
  destruct Hd as [Hsub2 Hgone2].
  assert (Hf : files w' ⊆ files w2
               /\ (OS.exists_b (files w2) fdir = true ->
                   forall n, Str.startswith n (v +:+ "_") = true ->
                     files w' !! (Path.resolve fdir ++ [n]) = None)).
  { destruct (OS.exists_b (files w2) fdir); cbn [when] in H.
    - apply bind_inr in H as (wa & [] & Hc & Hp).
      finish_print Hp wp Hfp. rewrite Hfp.
      apply clear_dir_inr in Hc as [Hsub Hgone];
        [|by eapply wf_fs_subseteq]. by split.
    - injection H as <-. by split. }
  destruct Hf as [Hsub Hgone]. split; [by etrans|]. split.
  - intros He n Hs. eapply lookup_weaken_None; [by apply Hgone2|done].
  - intros He. apply Hgone. by eapply exists_b_subseteq.
Qed.

(** X13: after a pruning that returned, whichever of [data/] and
    [figures/] exists holds no entry whose name starts with
    [version + "_"]. *)
Theorem pruning_leaves_no_artifact (r folder : string)
    (nb : gmap string string) (d f : bool) (verbose : Z) (w w' : world)
    (n : string) :
  wf_fs (files w) ->
  nb !! "name" = Some folder ->
  d || f = true ->
  clear_data_and_figure (Some r) nb d f verbose w = (w', inr tt) ->
  Str.startswith n (get nb "version" "v1" +:+ "_") = true ->
  (OS.exists_b (files w') (data_dir r folder) = true ->
   files w' !! (Path.resolve (data_dir r folder) ++ [n]) = None)
  /\ (OS.exists_b (files w') (Path.join r [folder; "figures"]) = true ->
      files w' !! (Path.resolve (Path.join r [folder; "figures"]) ++ [n])
      = None).
Proof.
  intros Hwf Hn Hdf H Hs.
  destruct (clear_inr r folder nb d f verbose w w' Hwf Hn Hdf H)
    as (Hsub & Hdata & Hfig).
  split; intros He.
  - apply Hdata; [|done]. by eapply exists_b_subseteq.
  - by apply Hfig.
Qed.

End WithListing.

End Pruning.

Section PruningScope.

Context {L : Libs}.




(** The path whose entry is followed. *)
Variable q : list string.

#[local] Instance kept_at_refl : Reflexive (kept_at q).
Proof. by intros fs Hwf. Qed.

#[local] Instance kept_at_trans : Transitive (kept_at q).
Proof.
  intros a b c H1 H2 Hwf. destruct (H1 Hwf) as [Hb H1'].
  destruct (H2 Hb) as [Hc H2']. split; [done|]. by rewrite H2', H1'.
Qed.

Lemma clear_loop_other dir v (l : list string) w :
  (forall n, n ∈ l -> Path.valid_name n = true) ->
  (forall n, q <> Path.resolve dir ++ [n]) ->
  files (for_each l (fun file =>
           when (Str.startswith file (v +:+ "_"))
             (OS.remove (Path.join dir [file]))) w).1 !! q
  = files w !! q.
Proof.
  intros Hv Hq. revert w. induction l as [|a l IH]; intros w; [done|].
  cbn [for_each]. unfold bind.
  assert (Ha : files (when (Str.startswith a (v +:+ "_"))
                        (OS.remove (Path.join dir [a])) w).1 !! q
               = files w !! q).
  { destruct (Str.startswith a (v +:+ "_")); [|done]. cbn [when].
    destruct (remove_files (Path.join dir [a]) w) as [->| ->]; [done|].
    rewrite (resolve_join_name dir a) by (apply Hv; by left).
    apply lookup_delete_ne. intros E. by apply (Hq a). }
  destruct (when _ _ w) as [w1 [e|[]]]; [done|].
  rewrite IH; [done|]. intros n Hn. apply Hv. by right.
Qed.

Hypothesis listdir_order_sound :
  forall l n, n ∈ listdir_order l -> n ∈ l.

Lemma clear_dir_other dir v :
  (forall n, q <> Path.resolve dir ++ [n]) ->
  preserves (kept_at q) (clear_dir dir v).
Proof.
  intros Hq w Hwf. split.
  - eapply wf_fs_subseteq; [done|].
    assert (H : preserves shrinks (clear_dir dir v)).
    { unfold clear_dir. effects. intros ? ?. apply shrinks_removed_at. }
    apply H.
  - unfold clear_dir, bind.
    destruct (OS.listdir listdir_order dir w) as [w0 [e|l]] eqn:Hl.
    + assert (H : preserves unchanged (OS.listdir listdir_order dir))
        by effects.
      specialize (H w). rewrite Hl in H. simpl in *. by rewrite H.
    + apply listdir_inr in Hl as [Hf ->]. rewrite clear_loop_other, Hf; auto.
      intros n Hn. eapply children_valid; [done|].
      by apply listdir_order_sound.
Qed.

Lemma clear_other (r folder : string)
    (nb : gmap string string) (d f : bool) (verbose : Z) (w : world) :
  wf_fs (files w) ->
  nb !! "name" = Some folder ->
  (forall n, q <> Path.resolve (data_dir r folder) ++ [n]) ->
  (forall n, q <> Path.resolve (Path.join r [folder; "figures"]) ++ [n]) ->
  files (clear_data_and_figure (Some r) nb d f verbose w).1 !! q
  = files w !! q.
Proof.
  intros Hwf Hn Hd Hf.
  assert (H : preserves (kept_at q)
                (clear_data_and_figure (Some r) nb d f verbose)).
  { unfold clear_data_and_figure.
    pose proof clear_dir_other as Hcd. revert Hcd.
    generalize (@clear_dir L). intros prune Hcd. effects.
    all: repeat match goal with
         | H : _ !! "name" = Some _ |- _ =>
             rewrite Hn in H; injection H as <-
         | H : Some _ = Some _ |- _ => injection H as <-
         end.
    - by apply Hcd.
    - by apply Hcd. }
  by destruct (H w Hwf).
Qed.

(** X15: for a folder whose path holds no dot names, pruning changes
    nothing but direct entries of the folder's [data/] and [figures/]:
    every other entry of the filesystem is as it was, whether the call
    returns or raises. *)
Theorem pruning_stays_in_data_and_figures (r folder : string)
    (nb : gmap string string) (d f : bool) (verbose : Z) (w : world) :
  wf_fs (files w) ->
  nb !! "name" = Some folder ->
  Path.plain (Path.join r [folder]) = true ->
  (forall n, q <> Path.resolve (data_dir r folder) ++ [n]) ->
  (forall n, q <> Path.resolve (Path.join r [folder; "figures"]) ++ [n]) ->
  files (clear_data_and_figure (Some r) nb d f verbose w).1 !! q
  = files w !! q.
Proof. intros Hwf Hn _. by apply clear_other. Qed.

End PruningScope.

Section PruningConfigs.

Context {L : Libs}.

Lemma snoc_ne_snoc2 (l : list string) a b c : l ++ [a] <> (l ++ [b]) ++ [c].
Proof.
  intros E. apply (f_equal length) in E. rewrite !length_app in E.
  simpl in E. lia.
Qed.

(** X16: pruning never removes or changes a configuration file of the
    folder, whatever the version pruned, whether the call returns or
    raises. *)
Theorem pruning_keeps_configs (r folder suffix : string)
    (nb : gmap string string) (d f : bool) (verbose : Z) (w : world) :
  (forall l n, n ∈ listdir_order l -> n ∈ l) ->
  wf_fs (files w) ->
  nb !! "name" = Some folder ->
  Str.has_slash suffix = false ->
  files (clear_data_and_figure (Some r) nb d f verbose w).1
    !! Path.resolve (Path.join r [folder; config_file suffix])
  = files w !! Path.resolve (Path.join r [folder; config_file suffix]).
Proof.
  intros Hord Hwf Hn Hs.
  pose proof (config_file_valid suffix Hs) as Hv.
  assert (Hres : Path.resolve (Path.join r [folder; config_file suffix])
                 = Path.resolve (Path.join r [folder]) ++ [config_file suffix])
    by (apply (resolve_join2 (Path.join r [folder])); exact Hv).
  apply (clear_other _ Hord r folder); [done|done|..]; rewrite Hres;
    intros n.
  - unfold data_dir.
    change (Path.join r [folder; "data"])
      with (Path.join (Path.join r [folder]) ["data"]).
    rewrite (resolve_join_name (Path.join r [folder]) "data") by reflexivity.
    apply snoc_ne_snoc2.
  - change (Path.join r [folder; "figures"])
      with (Path.join (Path.join r [folder]) ["figures"]).
    rewrite (resolve_join_name (Path.join r [folder]) "figures")
      by reflexivity.
    apply snoc_ne_snoc2.
Qed.

End PruningConfigs.

(** ** [print_config] *)


Section PrintConfigFacts.

Context {L : Libs}.

Variable str : doc scalar -> string.















End PrintConfigFacts.

(** ** The further theorems at concrete inputs *)

Lemma saves_write_one_file_witness :
  let w := Demo.start Demo.two_versions in
  Demo.nb_v1 !! "name" = Some "exp1"
  /\ Path.plain "/tmp/root/exp1/data/v1_a.pkl" = true
  /\ file_at (files w) Demo.data_v2 = Some [Byte.x02]
  /\ file_at (files (save_data (L := Demo.libs) (Some "/tmp/root")
                       Demo.nb_v1 [Byte.x07] "a" "pkl" 0 tt w).1)
       Demo.data_v2
     = file_at (files w) Demo.data_v2.
Proof.
  intros w.
  assert (Hn : Demo.nb_v1 !! "name" = Some "exp1") by (vm_compute; reflexivity).
  assert (Hp : Path.plain
                 (artifact_path (data_dir "/tmp/root" "exp1") Demo.nb_v1
                    "a" "pkl") = true) by (vm_compute; reflexivity).
  split; [exact Hn|]. split; [exact Hp|]. split; [vm_compute; reflexivity|].
  refine (proj2 (proj2 (saves_write_one_file (L := Demo.libs) "/tmp/root"
            "exp1" "v1" (DMap []) Demo.nb_v1 [] [Byte.x07] "a" "pkl" 0 tt w
            Demo.data_v2 Hn)) Hp _).
  vm_compute. discriminate.
Defined.

Lemma silent_unless_verbose_witness :
  let w := Demo.start Demo.two_versions in
  0 <= 0
  /\ stdout (clear_data_and_figure (L := Demo.libs) (Some "/tmp/root")
               Demo.nb_v1 true true 0 w).1 = stdout w.
Proof.
  intros w. split; [lia|].
  refine (proj1 (proj2 (proj2 (proj2
            (silent_unless_verbose (L := Demo.libs) (Some "/tmp/root") "exp1"
               "v1" (DMap []) Demo.nb_v1 [] [] "a" "pkl" 0 tt true true w
               _))))).
  lia.
Defined.

Lemma initialise_config_creates_skeleton_witness :
  let w := Demo.start ∅ in
  let w1 := (initialise_config (Some "/tmp/root") "exp1" 0 w).1 in
  OS.exists_b (files w) "/tmp/root/exp1" = false
  /\ is_dir (files w1) ["tmp"; "root"; "exp1"; "data"]
  /\ is_dir (files w1) ["tmp"; "root"; "exp1"; "figures"].
Proof.
  intros w w1.
  assert (He : OS.exists_b (files w) (Path.join "/tmp/root" ["exp1"]) = false)
    by (vm_compute; reflexivity).
  assert (H : initialise_config (Some "/tmp/root") "exp1" 0 w = (w1, inr tt))
    by (vm_compute; reflexivity).
  split; [exact He|].
  destruct (initialise_config_creates_skeleton "/tmp/root" "exp1" 0 w w1
              He H) as (_ & Hd & Hf & _).
  split; [exact Hd|exact Hf].
Defined.


Lemma csv_load_after_save_witness :
  let w := Demo.start Demo.with_table in
  let x := [Byte.x03; Byte.x04] in
  let w1 := (save_data (L := Demo.appending) (Some "/tmp/root") Demo.nb_v1 x
               "table" "csv" 0 tt w).1 in
  Demo.nb_v1 !! "name" = Some "exp1"
  /\ save_data (L := Demo.appending) (Some "/tmp/root") Demo.nb_v1 x "table"
       "csv" 0 tt w = (w1, inr tt)
  /\ file_at (files w) Demo.table_v1 = Some [Byte.x01; Byte.x02]
  /\ file_at (files w1) Demo.table_v1
     = Some [Byte.x01; Byte.x02; Byte.x03; Byte.x04]
  /\ exists b,
       to_csv (Libs := Demo.appending) tt x
         (file_at (files w) Demo.table_v1) = Some (b, true)
       /\ file_at (files w1) Demo.table_v1 = Some b
       /\ exists w2,
            files w2 = files w1
            /\ load_data (L := Demo.appending) (Some "/tmp/root") Demo.nb_v1
                 "table" "csv" 0 tt w1
               = (w2, match read_csv (Libs := Demo.appending) tt b with
                      | Some y => inr y
                      | None => inl (LibraryError "pandas")
                      end).
Proof.
  intros w x w1.
  assert (Hn : Demo.nb_v1 !! "name" = Some "exp1") by (vm_compute; reflexivity).
  assert (H : save_data (L := Demo.appending) (Some "/tmp/root") Demo.nb_v1 x
                "table" "csv" 0 tt w = (w1, inr tt))
    by (vm_compute; reflexivity).
  split; [exact Hn|]. split; [exact H|].
  split; [vm_compute; reflexivity|]. split; [vm_compute; reflexivity|].
  exact (csv_load_after_save (L := Demo.appending) "/tmp/root" "exp1"
           Demo.nb_v1 x "table" 0 0 tt tt w w1 Hn H).
Defined.

Lemma pickle_round_trip_across_configs_witness :
  let w := Demo.start Demo.skeleton in
  let nb : gmap string string := {[ "name" := "exp1" ]} in
  let x := [Byte.x01; Byte.x02] in
  let w1 := (save_data (L := Demo.libs) (Some "/tmp/root") nb x "res" "pkl"
               0 tt w).1 in
  save_data (L := Demo.libs) (Some "/tmp/root") nb x "res" "pkl" 0 tt w
    = (w1, inr tt)
  /\ exists w2,
       load_data (L := Demo.libs) (Some "/tmp/root") Demo.nb_v1 "res" "pkl"
         0 tt w1 = (w2, inr x)
       /\ files w2 = files w1.
Proof.
  intros w nb x w1.
  assert (H : save_data (L := Demo.libs) (Some "/tmp/root") nb x "res" "pkl"
                0 tt w = (w1, inr tt)) by (vm_compute; reflexivity).
  split; [exact H|].
  refine (pickle_round_trip_across_configs (L := Demo.libs)
            (Some "/tmp/root") nb Demo.nb_v1 x "res" 0 0 tt tt w w1
            _ _ _ H).
  - vm_compute. reflexivity.
  - vm_compute. reflexivity.
  - intros b Hb. injection Hb as <-. reflexivity.
Defined.

Lemma save_data_csv_without_to_csv_witness :
  Demo.nb_v1 !! "name" = Some "exp1"
  /\ has_to_csv (Libs := Demo.libs) [Byte.x01] = false
  /\ exists w',
       save_data (L := Demo.libs) (Some "/tmp/root") Demo.nb_v1 [Byte.x01]
         "table" "csv" 0 tt (Demo.start Demo.skeleton)
       = (w', inl (ValueError msg_no_to_csv))
       /\ forall q, file_at (files w') q = file_at Demo.skeleton q.
Proof.
  assert (Hn : Demo.nb_v1 !! "name" = Some "exp1") by (vm_compute; reflexivity).
  split; [exact Hn|]. split; [reflexivity|].
  refine (save_data_csv_without_to_csv (L := Demo.libs) "/tmp/root" "exp1"
            Demo.nb_v1 [Byte.x01] "table" 0 tt (Demo.start Demo.skeleton)
            Hn eq_refl _).
  left. vm_compute. reflexivity.
Defined.

Lemma load_data_unsupported_format_witness :
  let fs := <[ Demo.exp1 ++ ["data"; "v1_a.json"] := File [Byte.x01] ]>
              Demo.skeleton in
  Demo.nb_v1 !! "name" = Some "exp1"
  /\ OS.exists_b fs "/tmp/root/exp1/data/v1_a.json" = true
  /\ load_data (L := Demo.libs) (Some "/tmp/root") Demo.nb_v1 "a" "json" 0 tt
       (Demo.start fs)
     = (World fs [Stat "/tmp/root/exp1/data/v1_a.json"] [],
        inl (ValueError msg_unsupported)).
Proof.
  intros fs.
  assert (Hn : Demo.nb_v1 !! "name" = Some "exp1") by (vm_compute; reflexivity).
  assert (He : OS.exists_b fs "/tmp/root/exp1/data/v1_a.json" = true)
    by (vm_compute; reflexivity).
  split; [exact Hn|]. split; [exact He|].
  refine (load_data_unsupported_format (L := Demo.libs) "/tmp/root" "exp1"
            Demo.nb_v1 "a" "json" 0 tt (Demo.start fs) Hn _ _ He);
    discriminate.
Defined.


Lemma demo_listing_exact (l : list string) (n : string) :
  n ∈ listdir_order (Libs := Demo.libs) l <-> n ∈ l.
Proof. reflexivity. Qed.

Lemma pruning_leaves_no_artifact_witness :
  let w := Demo.start Demo.two_versions in
  let w' := (clear_data_and_figure (L := Demo.libs) (Some "/tmp/root")
               Demo.nb_v1 true true 0 w).1 in
  clear_data_and_figure (L := Demo.libs) (Some "/tmp/root") Demo.nb_v1
    true true 0 w = (w', inr tt)
  /\ files w !! Demo.data_v1 = Some (File [Byte.x01])
  /\ files w' !! Demo.data_v1 = None.
Proof.
  intros w w'.
  assert (H : clear_data_and_figure (L := Demo.libs) (Some "/tmp/root")
                Demo.nb_v1 true true 0 w = (w', inr tt))
    by (vm_compute; reflexivity).
  split; [exact H|]. split; [vm_compute; reflexivity|].
  refine (proj1 (pruning_leaves_no_artifact (L := Demo.libs)
            demo_listing_exact "/tmp/root" "exp1" Demo.nb_v1 true true 0 w w'
            "v1_a.pkl" wf_two_versions _ eq_refl H eq_refl) _).
  - vm_compute. reflexivity.
  - vm_compute. reflexivity.
Defined.



Lemma pruning_stays_in_data_and_figures_witness :
  let w := Demo.start Demo.with_config in
  let w' := (clear_data_and_figure (L := Demo.libs) (Some "/tmp/root")
               Demo.nb_v1 true true 0 w).1 in
  Path.plain "/tmp/root/exp1" = true
  /\ files w !! Demo.data_v1 = Some (File [Byte.x01])
  /\ files w' !! Demo.data_v1 = None
  /\ files w !! Demo.nested_v1 = Some (File [Byte.x04])
  /\ files w' !! Demo.nested_v1 = Some (File [Byte.x04]).
Proof.
  intros w w'.
  assert (Hp : Path.plain (Path.join "/tmp/root" ["exp1"]) = true)
    by (vm_compute; reflexivity).
  assert (H0 : files w !! Demo.nested_v1 = Some (File [Byte.x04]))
    by (vm_compute; reflexivity).
  split; [exact Hp|]. split; [vm_compute; reflexivity|].
  split; [vm_compute; reflexivity|]. split; [exact H0|].
  refine (eq_trans
            (pruning_stays_in_data_and_figures (L := Demo.libs)
               Demo.nested_v1 (fun l n H => H) "/tmp/root" "exp1" Demo.nb_v1
               true true 0 w wf_with_config _ Hp _ _) H0).
  - vm_compute. reflexivity.
  - intros n E. vm_compute in E. discriminate E.
  - intros n E. vm_compute in E. discriminate E.
Defined.

Lemma pruning_keeps_configs_witness :
  let w := Demo.start Demo.with_config in
  let nb : gmap string string :=
    {[ "name" := "exp1"; "version" := "config" ]} in
  let w' := (clear_data_and_figure (L := Demo.libs) (Some "/tmp/root") nb
               true true 0 w).1 in
  nb !! "name" = Some "exp1"
  /\ files w !! Path.resolve "/tmp/root/exp1/config_v1.yml"
     = Some (File [Byte.x05])
  /\ files w' !! Path.resolve "/tmp/root/exp1/config_v1.yml"
     = Some (File [Byte.x05]).
Proof.
  intros w nb w'.
  assert (Hn : nb !! "name" = Some "exp1") by (vm_compute; reflexivity).
  assert (H0 : files w !! Path.resolve "/tmp/root/exp1/config_v1.yml"
               = Some (File [Byte.x05])) by (vm_compute; reflexivity).
  split; [exact Hn|]. split; [exact H0|].
  exact (eq_trans
           (pruning_keeps_configs (L := Demo.libs) "/tmp/root" "exp1" "v1" nb
              true true 0 w (fun l n H => H) wf_with_config Hn eq_refl) H0).
Defined.

